(** * OpenFisca core: typed columns and the simulation front end

    A shallow embedding of [openfisca_core/columns.py] and of the
    [Simulation] classes of [openfisca_core/simulations.py].

    Python dictionaries are finite maps ([gmap]), sets are [gset]s, a
    raised exception is the [Raise] case of a [result].  Objects that the
    program mutates in place (column descriptors, entities, output
    tables) are passed and returned explicitly, or live in a store
    addressed by references when two names can denote the same object. *)

From stdpp Require Import gmap strings list fin_maps sorting pretty.
From Stdlib Require Import Ascii ZArith QArith.

Open Scope Z_scope.

(** ** Python values and exceptions *)

(** The values a JSON cell or a descriptor attribute can hold.
    [PyOther] stands for every object that is neither [None], a [bool],
    an [int], a [basestring] nor a [datetime.date], and that compares
    unequal to all of them (lists, dictionaries, ...); floats and longs
    are outside the universe of the model. *)
Inductive pyvalue : Type :=
| PyNone
| PyBool (b : bool)
| PyInt (z : Z)
| PyStr (s : string)
| PyDate (year month day : Z)
| PyOther.

#[global] Instance pyvalue_eq_dec : EqDecision pyvalue.
Proof. solve_decision. Defined.

Inductive pyexn : Type :=
| AssertionError (message : string)
| KeyError (key : string)
| TypeError
| ValueError
| AttributeError (attribute : string)
| RuntimeError    (* maximum recursion depth exceeded *)
| OverflowError.  (* cannot convert float infinity to integer *)

Inductive result (A : Type) : Type :=
| Ok (a : A)
| Raise (e : pyexn).
Arguments Ok {A} a.
Arguments Raise {A} e.

(** [bool] is a subclass of [int]: [True] is [1] and [False] is [0]. *)
Definition int_value (v : pyvalue) : option Z :=
  match v with
  | PyBool b => Some (Z.b2z b)
  | PyInt z => Some z
  | _ => None
  end.

(** [a == b]: numbers compare by value across [bool] and [int]. *)
Definition py_eq (a b : pyvalue) : bool :=
  match int_value a, int_value b with
  | Some x, Some y => x =? y
  | _, _ => bool_decide (a = b)
  end.

(** [key in d] for a dictionary [d] whose keys are [int]s. *)
Definition py_in_codes {A} (v : pyvalue) (d : gmap Z A) : bool :=
  match int_value v with
  | Some z => bool_decide (is_Some (d !! z))
  | None => false
  end.

(** ** Converters

    [openfisca_core.conv] re-exports the converters of the [biryani1]
    library ([biryani1.baseconv]); neither module is part of the source
    tree at hand, so the combinators below follow the behaviour of that
    library.  A converter maps a value to a pair (value, error), where
    the error is [None] on success, unless an exception escapes from
    it.  The [state] argument of the library only selects the language
    of the error messages and is left out; errors are kept as kinds,
    not as texts. *)
Module conv.

Inductive error : Type :=
| NotAnInstance            (* test_isinstance *)
| MustBeInteger            (* anything_to_int *)
| MustBelongTo             (* test_in *)
| MustBeGreaterOrEqual (constant : Z)
| MustEqual (constant : Z).

(** The pair a converter returns, or the exception that escapes. *)
Definition converter : Type := pyvalue → result (pyvalue * option error).

Inductive pyclass : Type := int | basestring.

Definition isinstance (v : pyvalue) (c : pyclass) : bool :=
  match c, v with
  | int, (PyInt _ | PyBool _) => true
  | basestring, PyStr _ => true
  | _, _ => false
  end.

(** [pipe] of a sequence of converters: apply each converter to the
    value produced by the one before it; stop at the first error.  No
    exception is caught. *)
Fixpoint pipe (converters : list converter) : converter :=
  λ value,
    match converters with
    | [] => Ok (value, None)
    | c :: rest =>
        match c value with
        | Ok (v, None) => pipe rest v
        | Ok (v, Some e) => Ok (v, Some e)
        | Raise exn => Raise exn
        end
    end.

(** [test(function, error)]: a [None] value is not tested. *)
Definition test (function : pyvalue → bool) (e : error) : converter :=
  λ value,
    match value with
    | PyNone => Ok (value, None)
    | _ => if function value then Ok (value, None) else Ok (value, Some e)
    end.

Definition test_isinstance (classes : list pyclass) : converter :=
  test (λ value, existsb (isinstance value) classes) NotAnInstance.

Definition test_in {A} (values : gmap Z A) : converter :=
  test (λ value, py_in_codes value values) MustBelongTo.

(** [test_in] over a dictionary keyed by slugs. *)
Definition test_in_slugs {A} (values : gmap string A) : converter :=
  test (λ value, match value with
                 | PyStr s => bool_decide (is_Some (values !! s))
                 | _ => false
                 end) MustBelongTo.

(** [value >= constant].  Only numbers reach this test in the
    pipelines below; Python 2 orders a string after every number. *)
Definition test_greater_or_equal (constant : Z) : converter :=
  test (λ value, match int_value value, value with
                 | Some z, _ => constant <=? z
                 | None, PyStr _ => true
                 | None, _ => false
                 end) (MustBeGreaterOrEqual constant).

Definition test_equals (constant : Z) : converter :=
  test (λ value, py_eq value (PyInt constant)) (MustEqual constant).

(** [first_match] of a sequence of converters: the result of the first
    converter that succeeds on the value; when none does, the result
    of the last one.  No exception is caught. *)
Fixpoint first_match_from (last : pyvalue * option error)
    (converters : list converter) : converter :=
  λ value,
    match converters with
    | [] => Ok last
    | c :: rest =>
        match c value with
        | Ok (v, None) => Ok (v, None)
        | Ok failed => first_match_from failed rest value
        | Raise exn => Raise exn
        end
    end.

Definition first_match (converters : list converter) : converter :=
  λ value, first_match_from (value, None) converters value.

(** [condition(test_converter, ok_converter, error_converter)]: both
    branches receive the original value; an exception of the test is
    not caught. *)
Definition condition (test_converter ok_converter error_converter : converter)
    : converter :=
  λ value,
    match test_converter value with
    | Ok (_, None) => ok_converter value
    | Ok (_, Some _) => error_converter value
    | Raise exn => Raise exn
    end.

(** [default(constant)] replaces a [None] value, and only that. *)
Definition default (constant : pyvalue) : converter :=
  λ value,
    match value with
    | PyNone => Ok (constant, None)
    | _ => Ok (value, None)
    end.

(** [function(f)]: a [None] value is not converted. *)
Definition function (f : pyvalue → pyvalue) : converter :=
  λ value,
    match value with
    | PyNone => Ok (value, None)
    | _ => Ok (f value, None)
    end.

Section text.
(** [int(s)] on a string: [Some z] when [s] is an integer literal,
    [None] when Python raises [ValueError]. *)
Variable int_literal : string → option Z.
(** [int(float(s))] on a string: the integer part of the float that
    [s] reads as, or the exception raised, [ValueError] when [s] reads
    as no float or as a NaN, [OverflowError] when it reads as an
    infinity. *)
Variable int_of_float : string → result Z.
(** [biryani1.strings.slugify]. *)
Variable slugify : string → string.

(** [anything_to_int]: a [None] value is not converted; otherwise
    [int(value)] is tried, then, on a [ValueError], [int(float(value))],
    and a second [ValueError] is turned into an error.  Any other
    exception escapes: the [OverflowError] of an infinite float, the
    [TypeError] of [int] on an object that is no number and no string. *)
Definition anything_to_int : converter :=
  λ value,
    match value with
    | PyNone => Ok (value, None)
    | PyBool b => Ok (PyInt (Z.b2z b), None)
    | PyInt z => Ok (PyInt z, None)
    | PyStr s =>
        match int_literal s with
        | Some z => Ok (PyInt z, None)
        | None =>
            match int_of_float s with
            | Ok z => Ok (PyInt z, None)
            | Raise ValueError => Ok (value, Some MustBeInteger)
            | Raise exn => Raise exn
            end
        end
    | _ => Raise TypeError
    end.

(** [input_to_slug]: the slug of the string, or [None] when the
    slug is empty. *)
Definition input_to_slug : converter :=
  λ value,
    match value with
    | PyStr s =>
        let slug := slugify s in
        if bool_decide (slug = "") then Ok (PyNone, None) else Ok (PyStr slug, None)
    | _ => Ok (value, None)
    end.
End text.

End conv.

(** ** Reference text functions on ASCII strings

    Concrete instances of the three text functions the converters are
    parametric in, for plain ASCII input: Python's [int] on a decimal
    integer literal (surrounding blanks and a sign allowed), Python's
    [int(float(s))] on a decimal float literal or one of the words inf,
    infinity and nan, and the slug of [biryani1.strings.slugify]
    (letters lowered, digits kept, every other character a separator,
    separators squeezed and stripped). *)
Module ascii_text.

Definition is_digit (c : ascii) : bool :=
  ((48 <=? nat_of_ascii c) && (nat_of_ascii c <=? 57))%nat.

Definition is_space (c : ascii) : bool :=
  let n := nat_of_ascii c in ((n =? 32) || ((9 <=? n) && (n <=? 13)))%nat.

Fixpoint all_space (s : string) : bool :=
  match s with
  | EmptyString => true
  | String c rest => is_space c && all_space rest
  end.

Fixpoint digits (acc : Z) (seen : bool) (s : string) : option Z :=
  match s with
  | EmptyString => if seen then Some acc else None
  | String c rest =>
      if is_digit c
      then digits (10 * acc + Z.of_nat (nat_of_ascii c - 48)) true rest
      else if seen && all_space s then Some acc else None
  end.

Fixpoint lstrip (s : string) : string :=
  match s with
  | String c rest => if is_space c then lstrip rest else s
  | EmptyString => s
  end.

(** [int(s)]: the integer literals only; [None] is [ValueError]. *)
Definition int_literal (s : string) : option Z :=
  match lstrip s with
  | String "-" rest => Z.opp <$> digits 0 false rest
  | String "+" rest => digits 0 false rest
  | t => digits 0 false t
  end.

Definition lower (c : ascii) : ascii :=
  let n := nat_of_ascii c in
  if ((65 <=? n) && (n <=? 90))%nat then ascii_of_nat (n + 32) else c.

(** What follows a word at the head of a string, letter case apart. *)
Fixpoint after_word (word s : string) : option string :=
  match word, s with
  | EmptyString, _ => Some s
  | String w word', String c s' =>
      if Ascii.eqb w (lower c) then after_word word' s' else None
  | String _ _, EmptyString => None
  end.

Definition is_word (word s : string) : bool :=
  match after_word word s with
  | Some rest => all_space rest
  | None => false
  end.

Definition read_sign (s : string) : bool * string :=
  match s with
  | String "-" rest => (true, rest)
  | String "+" rest => (false, rest)
  | _ => (false, s)
  end.

(** The digits at the head of a string, added to [acc], their number
    and what follows them. *)
Fixpoint read_digits (acc : Z) (count : nat) (s : string) : Z * nat * string :=
  match s with
  | String c rest =>
      if is_digit c
      then read_digits (10 * acc + Z.of_nat (nat_of_ascii c - 48)) (S count) rest
      else (acc, count, s)
  | EmptyString => (acc, count, s)
  end.

(** The exponent part, 0 when there is none; [None] when an [e] is
    followed by no digit. *)
Definition read_exponent (s : string) : option (Z * string) :=
  match s with
  | String c rest =>
      if Ascii.eqb (lower c) "e"
      then
        let '(negative, rest) := read_sign rest in
        let '(e, count, rest) := read_digits 0 0 rest in
        if (count =? 0)%nat then None
        else Some (if negative then - e else e, rest)
      else Some (0, s)
  | EmptyString => Some (0, s)
  end.

(** [a / b] rounded to the nearest integer, to the even one on a tie
    ([0 <= a], [0 < b]). *)
Definition round_half_even (a b : Z) : Z :=
  let k := a / b in
  match 2 * (a mod b) ?= b with
  | Lt => k
  | Gt => k + 1
  | Eq => if Z.even k then k else k + 1
  end.

(** The integer part of the double nearest to [n / d] ([0 < n],
    [0 < d]); [None] when that double is the infinity.  Below one half
    the integer part is 0 whatever the rounding; from there on the
    double is [m * 2 ^ shift] with [m] of 53 bits. *)
Definition trunc_double (n d : Z) : option Z :=
  if 2 * n <? d then Some 0
  else
    let e0 := Z.log2 n - Z.log2 d in
    let at_least := if 0 <=? e0 then d * 2 ^ e0 <=? n else d <=? n * 2 ^ (- e0) in
    let e := if at_least then e0 else e0 - 1 in
    if 1024 <=? e then None
    else
      let shift := e - 52 in
      let m := if 0 <=? shift then round_half_even n (d * 2 ^ shift)
               else round_half_even (n * 2 ^ (- shift)) d in
      if 0 <=? shift
      then if 2 ^ 1024 <=? m * 2 ^ shift then None else Some (m * 2 ^ shift)
      else Some (m / 2 ^ (- shift)).

(** The integer part of the float of mantissa [m], written with
    [count] digits, and decimal exponent [e]; literals far out of the
    range of the doubles are answered without computing their power of
    ten. *)
Definition trunc_decimal (m : Z) (count : nat) (e : Z) : option Z :=
  if m =? 0 then Some 0
  else if 400 <? e then None
  else if e + Z.of_nat count <? 0 then Some 0
  else if 0 <=? e then trunc_double (m * 10 ^ e) 1
  else trunc_double m (10 ^ (- e)).

(** [int(float(s))]. *)
Definition int_of_float (s : string) : result Z :=
  let '(negative, t) := read_sign (lstrip s) in
  if is_word "infinity" t || is_word "inf" t then Raise OverflowError
  else if is_word "nan" t then Raise ValueError
  else
    let '(whole, count1, t) := read_digits 0 0 t in
    let '(mantissa, count2, t) :=
      match t with
      | String "." rest => read_digits whole 0 rest
      | _ => (whole, O, t)
      end in
    if (count1 + count2 =? 0)%nat then Raise ValueError
    else
      match read_exponent t with
      | None => Raise ValueError
      | Some (e, rest) =>
          if all_space rest
          then
            match trunc_decimal mantissa (count1 + count2) (e - Z.of_nat count2) with
            | Some z => Ok (if negative then - z else z)
            | None => Raise OverflowError
            end
          else Raise ValueError
      end.

Definition slugify_char (c : ascii) : ascii :=
  let n := nat_of_ascii c in
  if (((97 <=? n) && (n <=? 122)) || is_digit c)%nat then c
  else if ((65 <=? n) && (n <=? 90))%nat then ascii_of_nat (n + 32)
  else "-"%char.

(** A separator is written only between two kept characters. *)
Fixpoint squeeze (pending started : bool) (s : string) : string :=
  match s with
  | EmptyString => EmptyString
  | String c rest =>
      if Ascii.eqb c "-" then squeeze started started rest
      else if pending then String "-" (String c (squeeze false true rest))
      else String c (squeeze false true rest)
  end.

Fixpoint map_chars (f : ascii → ascii) (s : string) : string :=
  match s with
  | EmptyString => EmptyString
  | String c rest => String (f c) (map_chars f rest)
  end.

Definition slugify (s : string) : string :=
  squeeze false false (map_chars slugify_char s).

End ascii_text.

(** ** Column descriptors ([columns.py]) *)
Module columns.

(** [enumerations.Enum] is not part of the source tree; the column
    code only reads its [_vars] dictionary (code to label). *)
Record Enum : Type := { _vars : gmap Z string }.

Inductive column_class : Type :=
| class_Column | class_BoolCol | class_DateCol | class_FloatCol
| class_IntCol | class_AgesCol | class_EnumCol.

(** Class attributes, resolved along the inheritance chain. *)
Definition class_default (c : column_class) : pyvalue :=
  match c with
  | class_BoolCol => PyBool false
  | class_AgesCol => PyInt (-9999)
  | _ => PyInt 0
  end.

(** [json_type] is commented out in [Column] and defined in the
    subclasses only. *)
Definition class_json_type (c : column_class) : option string :=
  match c with
  | class_Column => None
  | class_BoolCol => Some "Boolean"
  | class_DateCol => Some "Date"
  | class_FloatCol => Some "Float"
  | class_IntCol | class_AgesCol => Some "Integer"
  | class_EnumCol => Some "Enumeration"
  end.

Definition class_val_type (c : column_class) : pyvalue :=
  match c with
  | class_DateCol => PyStr "date"
  | _ => PyNone
  end.

(** A column object: the value each attribute lookup yields (the
    instance attribute when [__init__] has set one, the class attribute
    otherwise).  No class of [columns.py] defines [freq] and
    [Column.__init__] neither accepts nor sets it: [freq = None] is an
    object without that attribute. *)
Record Column : Type := {
  cls : column_class;
  cerfa_field : pyvalue;
  _default : pyvalue;
  end_ : pyvalue;
  entity : pyvalue;
  info : pyvalue;
  label : pyvalue;
  legislative_input : bool;
  name : pyvalue;
  start : pyvalue;
  survey_only : bool;
  val_type : pyvalue;
  freq : option pyvalue;
  enum : option Enum;
  index_by_slug : option (gmap string Z) }.

Definition is_none (v : pyvalue) : bool :=
  match v with PyNone => true | _ => false end.

(** Truth value of an object. *)
Definition truthy (v : pyvalue) : bool :=
  match v with
  | PyNone => false
  | PyBool b => b
  | PyInt z => negb (z =? 0)
  | PyStr s => negb (bool_decide (s = ""))
  | _ => true
  end.

(** The keyword arguments of [Column.__init__]; [kw_enum] is the
    [enum] argument of [EnumCol.__init__], [None] unless an [Enum]
    instance is passed. *)
Record init_kwargs : Type := {
  kw_label : pyvalue;
  kw_cerfa_field : pyvalue;
  kw_default : pyvalue;
  kw_end : pyvalue;
  kw_entity : pyvalue;
  kw_info : pyvalue;
  kw_legislative_input : pyvalue;
  kw_start : pyvalue;
  kw_survey_only : pyvalue;
  kw_val_type : pyvalue;
  kw_enum : option Enum }.

(** The defaults of the signature. *)
Definition no_kwargs : init_kwargs :=
  {| kw_label := PyNone; kw_cerfa_field := PyNone; kw_default := PyNone;
     kw_end := PyNone; kw_entity := PyNone; kw_info := PyNone;
     kw_legislative_input := PyBool true; kw_start := PyNone;
     kw_survey_only := PyBool false; kw_val_type := PyNone;
     kw_enum := None |}.

(** [Column.__init__], run on a fresh instance of class [c]
    ([EnumCol.__init__] then keeps the enumeration). *)
Definition __init__ (c : column_class) (kw : init_kwargs) : Column :=
  {| cls := c;
     cerfa_field := kw_cerfa_field kw;
     _default :=
       if negb (is_none (kw_default kw)) && negb (py_eq (kw_default kw) (class_default c))
       then kw_default kw else class_default c;
     end_ := kw_end kw;
     entity := if truthy (kw_entity kw) then kw_entity kw else PyStr "ind";
     info := kw_info kw;
     label := kw_label kw;
     legislative_input := truthy (kw_legislative_input kw);
     name := PyNone;
     start := kw_start kw;
     survey_only := truthy (kw_survey_only kw);
     val_type :=
       if negb (is_none (kw_val_type kw)) && negb (py_eq (kw_val_type kw) (class_val_type c))
       then kw_val_type kw else class_val_type c;
     freq := None;
     enum := match c with class_EnumCol => kw_enum kw | _ => None end;
     index_by_slug := None |}.

(** *** Serialization *)

Inductive json : Type :=
| JValue (v : pyvalue)
| JLabels (labels : list (Z * string)).

(** An [OrderedDict] under construction: items in insertion order.
    Every key below is stored once. *)
Definition setitem (d : list (string * json)) (key : string) (v : json)
    : list (string * json) :=
  d ++ [(key, v)].

Definition pad (width : nat) (z : Z) : string :=
  let digits := pretty z in
  String.concat "" (replicate (width - String.length digits) "0") +:+ digits.

(** [datetime.date.isoformat]. *)
Definition isoformat (year month day : Z) : string :=
  pad 4 year +:+ "-" +:+ pad 2 month +:+ "-" +:+ pad 2 day.

Definition date_to_json (v : pyvalue) : pyvalue :=
  match v with
  | PyDate y m d => PyStr (isoformat y m d)
  | _ => v
  end.

Definition set_unless_none (key : string) (v : pyvalue)
    (d : list (string * json)) : list (string * json) :=
  if is_none v then d else setitem d key (JValue v).

(** [Column.to_json].  The read of [self.json_type] and the read of
    [self.freq] raise [AttributeError] when the attribute is missing. *)
Definition Column_to_json (self : Column) : result (list (string * json)) :=
  match class_json_type (cls self) with
  | None => Raise (AttributeError "json_type")
  | Some json_type =>
      let self_json := [("@type", JValue (PyStr json_type))] in
      let self_json := set_unless_none "cerfa_field" (cerfa_field self) self_json in
      let self_json := set_unless_none "default" (_default self) self_json in
      let self_json := set_unless_none "end" (date_to_json (end_ self)) self_json in
      let self_json := set_unless_none "entity" (entity self) self_json in
      match freq self with
      | None => Raise (AttributeError "freq")
      | Some f =>
          let self_json :=
            if negb (py_eq f (PyStr "year"))
            then setitem self_json "freq" (JValue f) else self_json in
          let self_json := set_unless_none "label" (label self) self_json in
          let self_json := set_unless_none "name" (name self) self_json in
          let self_json := set_unless_none "start" (date_to_json (start self)) self_json in
          let self_json := set_unless_none "val_type" (val_type self) self_json in
          Ok self_json
      end
  end.

(** Order of the items of a dictionary with integer keys (the keys
    are distinct, so the labels never decide). *)
Definition item_le (a b : Z * string) : Prop := a.1 ≤ b.1.

#[global] Instance item_le_dec : RelDecision item_le.
Proof. intros a b. unfold item_le. apply _. Defined.

(** [sorted(d.iteritems())]. *)
Definition sorted_items (d : gmap Z string) : list (Z * string) :=
  merge_sort item_le (map_to_list d).

(** Modelled from the spec: the code to label table of an enumeration.
    Iterating an [Enum] yields its (label, code) pairs; [Enum.__iter__]
    is in [enumerations.py], which is not part of the source tree, and
    the pairs are taken in the order of the codes. *)
Definition enum_labels (e : Enum) : list (Z * string) := sorted_items (_vars e).

(** [EnumCol.to_json]. *)
Definition EnumCol_to_json (self : Column) : result (list (string * json)) :=
  match Column_to_json self with
  | Raise e => Raise e
  | Ok self_json =>
      match enum self with
      | Some e => Ok (setitem self_json "labels" (JLabels (enum_labels e)))
      | None => Ok self_json
      end
  end.

(** Method resolution of [to_json]. *)
Definition to_json (self : Column) : result (list (string * json)) :=
  match cls self with
  | class_EnumCol => EnumCol_to_json self
  | _ => Column_to_json self
  end.

(** *** Validation pipelines *)

Section pipelines.
Variable int_literal : string → option Z.
Variable int_of_float : string → result Z.
Variable slugify : string → string.

(** [IntCol.json_to_python]. *)
Definition IntCol_json_to_python (self : Column) : conv.converter :=
  conv.test_isinstance [conv.int].

(** [AgesCol.json_to_python]. *)
Definition AgesCol_json_to_python (self : Column) : conv.converter :=
  conv.pipe [
    IntCol_json_to_python self;
    conv.first_match [
      conv.test_greater_or_equal 0;
      conv.test_equals (-9999) ] ].

(** The dictionary built from the (slug, code) pairs of the labels
    in the order of their codes: of two labels with one slug the one
    with the greater code stays. *)
Definition build_index_by_slug (e : Enum) : gmap string Z :=
  foldl (λ (d : gmap string Z) (item : Z * string), <[slugify item.2 := item.1]> d)
        ∅ (sorted_items (_vars e)).

(** [min(d.iterkeys())]; [None] stands for the [ValueError] on an
    empty dictionary. *)
Definition min_key (d : gmap Z string) : option Z :=
  match (map_to_list d).*1 with
  | [] => None
  | k :: ks => Some (foldr Z.min k ks)
  end.

Definition set_index_by_slug (self : Column) (index : gmap string Z) : Column :=
  {| cls := cls self; cerfa_field := cerfa_field self; _default := _default self;
     end_ := end_ self; entity := entity self; info := info self;
     label := label self; legislative_input := legislative_input self;
     name := name self; start := start self; survey_only := survey_only self;
     val_type := val_type self; freq := freq self; enum := enum self;
     index_by_slug := Some index |}.

(** The constant handed to [conv.default] in the pipeline of an
    enumeration. *)
Definition enum_default (self : Column) (e : Enum) : result pyvalue :=
  if negb (is_none (_default self)) && py_in_codes (_default self) (_vars e)
  then Ok (_default self)
  else match min_key (_vars e) with
       | Some k => Ok (PyInt k)
       | None => Raise ValueError
       end.

(** The pipeline of an enumeration, given the label index in use. *)
Definition enum_pipeline (e : Enum) (index : gmap string Z) (fallback : pyvalue)
    : conv.converter :=
  conv.pipe [
    conv.test_isinstance [conv.basestring; conv.int];
    conv.condition
      (conv.anything_to_int int_literal int_of_float)
      (conv.pipe [
         conv.anything_to_int int_literal int_of_float;
         conv.test_in (_vars e) ])
      (conv.pipe [
         conv.input_to_slug slugify;
         conv.test_in_slugs index;
         conv.function (λ slug,
           match slug with
           | PyStr s => from_option PyInt PyNone (index !! s)
           | _ => PyNone
           end) ]);
    conv.default fallback ].

(** [EnumCol.json_to_python]: a property that reads the descriptor,
    may store the label index in it, and returns a converter.  The
    second component is the descriptor after the access. *)
Definition EnumCol_json_to_python (self : Column)
    : result conv.converter * Column :=
  match enum self with
  | None =>
      (Ok (conv.pipe [
             conv.test_isinstance [conv.basestring; conv.int];
             conv.anything_to_int int_literal int_of_float;
             conv.default (_default self) ]),
       self)
  | Some e =>
      let '(index, self') :=
        match index_by_slug self with
        | None =>
            let index := build_index_by_slug e in
            (index, set_index_by_slug self index)
        | Some index => (index, self)
        end in
      match enum_default self e with
      | Raise exn => (Raise exn, self')
      | Ok fallback => (Ok (enum_pipeline e index fallback), self')
      end
  end.

(** Validate one value: access the property, call the converter. *)
Definition validate (self : Column) (value : pyvalue)
    : result (pyvalue * option conv.error) * Column :=
  match EnumCol_json_to_python self with
  | (Ok converter, self') => (converter value, self')
  | (Raise exn, self') => (Raise exn, self')
  end.

(** The index the converter of an enumeration works with: the stored
    one, or the one built at this access. *)
Definition index_in_use (self : Column) (e : Enum) : gmap string Z :=
  default (build_index_by_slug e) (index_by_slug self).

(** Whether an access to the property runs the assignment that builds
    and stores the index. *)
Definition builds_index (self : Column) : bool :=
  match enum self, index_by_slug self with
  | Some _, None => true
  | _, _ => false
  end.

(** The number of times the index is built over [n] successive uses. *)
Fixpoint build_count (n : nat) (self : Column) : nat :=
  match n with
  | O => O
  | S k =>
      ((if builds_index self then 1 else 0)
       + build_count k (EnumCol_json_to_python self).2)%nat
  end.

(** [n] successive uses of the property on one descriptor. *)
Fixpoint use_repeatedly (n : nat) (self : Column) : Column :=
  match n with
  | O => self
  | S k => use_repeatedly k (EnumCol_json_to_python self).2
  end.

End pipelines.

End columns.

(** ** The simulation front end

    [simulations.py] holds the two sides of a merge.  This module is
    the class [Simulation] of the second side, with [compute],
    [set_entities] and [get_holder_by_name]; the class [Simulation] of
    the first side, with [_preproc] and [_compute], is the module
    [legacy_simulations] below. *)
Module simulations.

(** Order of [sorted] on names. *)
Definition name_le (a b : string) : Prop := String.leb a b = true.

#[global] Instance name_le_dec : RelDecision name_le.
Proof. intros a b. unfold name_le. apply _. Defined.

(** [sorted(requested_columns_name)]. *)
Definition sorted_names (requested : gset string) : list string :=
  merge_sort name_le (elements requested).

(** The message of the assertion in [Simulation.compute]. *)
Definition infinite_loop_message (requested : gset string) : string :=
  "Infinite loop. Missing values for columns: "
  +:+ String.concat ", " (sorted_names requested).

Section engine.
(** [V]: the elements of a column array; [L]: a compact legislation. *)
Variables (V L : Type).

Inductive holder_state : Type := EMPTY | INPUT | COMPUTED.

(** Modelled from the spec: the Holder, the cache cell of one variable
    ([holders.py] is not part of the source tree). *)
Record Holder : Type := {
  state : holder_state;
  values : list V }.

(** Modelled from the spec: a Formula Binding, the inputs it requires
    and its function of the resolved arrays and the legislation. *)
Record Formula : Type := {
  required_inputs : list string;
  compute_fn : list (list V) → L → list V }.

(** Modelled from the spec: an Entity ([entities.py] is not part of
    the source tree).  [Simulation] reads its [column_by_name] and
    [holder_by_name] dictionaries; the formula bindings, the member
    count and the default element that fills a variable without
    formula follow the data model of the spec. *)
Record Entity : Type := {
  column_by_name : gmap string columns.Column;
  holder_by_name : gmap string Holder;
  formula_by_name : gmap string Formula;
  member_count : nat;
  default_value : string → V }.

(** Entities are objects shared between [entities] and
    [entity_by_column_name]: both hold references into one store. *)
Definition entity_ref : Type := nat.

(** The attributes of a [Simulation] ([tax_benefit_system] is an
    opaque collaborator and is left out).  [entities] lists the items
    of the dictionary in its iteration order; the two attributes set by
    [set_entities] are [None] before it is called. *)
Record Simulation : Type := {
  compact_legislation : L;
  date : pyvalue;
  default_compact_legislation : L;
  entities : option (list (string * entity_ref));
  entity_by_column_name : option (gmap string entity_ref) }.

(** A simulation together with the store of its entity objects. *)
Record world : Type := {
  sim : Simulation;
  heap : gmap entity_ref Entity }.

(** The names registered under the entity a reference denotes. *)
Definition column_names (h : gmap entity_ref Entity) (r : entity_ref) : list string :=
  match h !! r with
  | Some e => (map_to_list (column_by_name e)).*1
  | None => []
  end.

(** The dictionary built by the generator expression of
    [set_entities]: one (name, entity) pair per entity and registered
    name, in iteration order; a later pair replaces an earlier one. *)
Definition owner_pairs (h : gmap entity_ref Entity)
    (ents : list (string * entity_ref)) : list (string * entity_ref) :=
  ents ≫= (λ item, (λ column_name, (column_name, item.2)) <$> column_names h item.2).

Definition dict_of_pairs (pairs : list (string * entity_ref)) : gmap string entity_ref :=
  foldl (λ (d : gmap string entity_ref) (p : string * entity_ref), <[p.1 := p.2]> d) ∅ pairs.

(** [Simulation.set_entities]. *)
Definition set_entities (w : world) (ents : list (string * entity_ref)) : world :=
  {| sim :=
       {| compact_legislation := compact_legislation (sim w);
          date := date (sim w);
          default_compact_legislation := default_compact_legislation (sim w);
          entities := Some ents;
          entity_by_column_name := Some (dict_of_pairs (owner_pairs (heap w) ents)) |};
     heap := heap w |}.

(** The type of [Entity.compute], called on the entity a reference
    denotes. *)
Definition entity_method : Type :=
  entity_ref → string → gset string → world → result (list V) * world.

(** [Simulation.compute].  [requested_columns_name] is [None] when the
    argument is left out.  Subscripting the [None] that
    [entity_by_column_name] holds before [set_entities] is a
    [TypeError]; a missing key is a [KeyError]. *)
Definition compute (entity_compute : entity_method) (column_name : string)
    (requested_columns_name : option (gset string)) (w : world)
    : result (list V) * world :=
  let checked :=
    match requested_columns_name with
    | None => Ok ∅
    | Some requested =>
        if decide (column_name ∈ requested)
        then Raise (AssertionError (infinite_loop_message requested))
        else Ok requested
    end in
  match checked with
  | Raise exn => (Raise exn, w)
  | Ok requested =>
      match entity_by_column_name (sim w) with
      | None => (Raise TypeError, w)
      | Some owner =>
          match owner !! column_name with
          | None => (Raise (KeyError column_name), w)
          | Some entity => entity_compute entity column_name requested w
          end
      end
  end.

(** The [default] argument of [get_holder_by_name]: the sentinel
    [UnboundLocalError] of the signature, or a value. *)
Inductive default_arg : Type :=
| UnboundLocalError
| Default (v : pyvalue).

Inductive holder_or_default : Type :=
| TheHolder (h : Holder)
| TheDefault (v : pyvalue).

(** [Simulation.get_holder_by_name].  A reference always denotes an
    object; the store being a partial map, a reference outside it is
    answered like an object without the attribute. *)
Definition get_holder_by_name (w : world) (column_name : string)
    (default : default_arg) : result holder_or_default :=
  match entity_by_column_name (sim w) with
  | None => Raise TypeError
  | Some owner =>
      match owner !! column_name with
      | None => Raise (KeyError column_name)
      | Some entity =>
          match heap w !! entity with
          | None => Raise (AttributeError "holder_by_name")
          | Some e =>
              match default with
              | UnboundLocalError =>
                  match holder_by_name e !! column_name with
                  | Some h => Ok (TheHolder h)
                  | None => Raise (KeyError column_name)
                  end
              | Default v =>
                  Ok (match holder_by_name e !! column_name with
                      | Some h => TheHolder h
                      | None => TheDefault v
                      end)
              end
          end
      end
  end.

(** *** The entity side of the evaluation protocol *)

Definition set_holder (w : world) (r : entity_ref) (column_name : string)
    (h : Holder) : world :=
  {| sim := sim w;
     heap :=
       match heap w !! r with
       | Some e =>
           <[r := {| column_by_name := column_by_name e;
                     holder_by_name := <[column_name := h]> (holder_by_name e);
                     formula_by_name := formula_by_name e;
                     member_count := member_count e;
                     default_value := default_value e |}]> (heap w)
       | None => heap w
       end |}.

(** Modelled from the spec: the required inputs are computed one
    after the other through the simulation; the first exception ends
    the chain and propagates. *)
Fixpoint resolve
    (sim_compute : string → option (gset string) → world → result (list V) * world)
    (inputs : list string) (requested : gset string) (w : world)
    : result (list (list V)) * world :=
  match inputs with
  | [] => (Ok [], w)
  | input :: rest =>
      match sim_compute input (Some requested) w with
      | (Raise exn, w1) => (Raise exn, w1)
      | (Ok array, w1) =>
          match resolve sim_compute rest requested w1 with
          | (Raise exn, w2) => (Raise exn, w2)
          | (Ok arrays, w2) => (Ok (array :: arrays), w2)
          end
      end
  end.

(** Modelled from the spec: [Entity.compute] ([entities.py] is not
    part of the source tree), steps 3 to 5 of the evaluation protocol.
    A holder that is not EMPTY answers at once.  Otherwise, with a
    formula, every required input is computed through the simulation
    with the requested set extended by the variable itself, the formula
    is applied to the arrays and the legislation, and the result is
    stored as COMPUTED; without a formula the array is filled with the
    default and the holder stays EMPTY. *)
Definition Entity_compute
    (sim_compute : string → option (gset string) → world → result (list V) * world)
    : entity_method :=
  λ r column_name requested w,
    match heap w !! r with
    | None => (Raise (AttributeError "compute"), w)
    | Some e =>
        let populated :=
          match holder_by_name e !! column_name with
          | Some h => match state h with EMPTY => None | _ => Some (values h) end
          | None => None
          end in
        match populated with
        | Some array => (Ok array, w)
        | None =>
            match formula_by_name e !! column_name with
            | Some formula =>
                match resolve sim_compute (required_inputs formula)
                        (requested ∪ {[column_name]}) w with
                | (Raise exn, w1) => (Raise exn, w1)
                | (Ok arrays, w1) =>
                    let array := compute_fn formula arrays (compact_legislation (sim w1)) in
                    (Ok array,
                     set_holder w1 r column_name {| state := COMPUTED; values := array |})
                end
            | None =>
                let array := replicate (member_count e) (default_value e column_name) in
                (Ok array,
                 set_holder w r column_name {| state := EMPTY; values := array |})
            end
        end
    end.

(** The recursion between [Simulation.compute] and [Entity.compute],
    [depth] bounding the call stack as the interpreter does. *)
Fixpoint evaluate (depth : nat) (column_name : string)
    (requested_columns_name : option (gset string)) (w : world)
    : result (list V) * world :=
  match depth with
  | O => (Raise RuntimeError, w)
  | S d => compute (Entity_compute (evaluate d)) column_name requested_columns_name w
  end.

End engine.

Arguments state {V} h.
Arguments values {V} h.
Arguments required_inputs {V L} f.
Arguments compute_fn {V L} f.
Arguments column_by_name {V L} e.
Arguments holder_by_name {V L} e.
Arguments formula_by_name {V L} e.
Arguments member_count {V L} e.
Arguments default_value {V L} e.
Arguments compact_legislation {L} s.
Arguments date {L} s.
Arguments default_compact_legislation {L} s.
Arguments entities {L} s.
Arguments entity_by_column_name {L} s.
Arguments sim {V L} w.
Arguments heap {V L} w.
Arguments column_names {V L} h r.
Arguments owner_pairs {V L} h ents.
Arguments set_entities {V L} w ents.
Arguments compute {V L} entity_compute column_name requested_columns_name w.
Arguments get_holder_by_name {V L} w column_name default.
Arguments TheHolder {V} h.
Arguments TheDefault {V} v.
Arguments set_holder {V L} w r column_name h.
Arguments resolve {V L} sim_compute inputs requested w.
Arguments Entity_compute {V L} sim_compute.
Arguments evaluate {V L} depth column_name requested_columns_name w.

End simulations.

(** ** Reform mode

    The class [Simulation] of the first side of [simulations.py], with
    [_preproc] and [_compute]. *)
Module legacy_simulations.

Section tables.
(** [V]: the elements of a column array; [L]: a legislation snapshot. *)
Variables (V L : Type).

(** Modelled from the spec: a formula-bearing variable; its function
    reads other columns through a lookup and receives the legislation
    of its table and the default legislation. *)
Record Prestation : Type := {
  func : (string → option (list V)) → L → L → list V }.

(** Modelled from the spec: an input table ([datatables.py] is not
    part of the source tree), the columns supplied as input. *)
Record DataTable : Type := {
  table : gmap string (list V) }.

(** Modelled from the spec: an output table ([taxbenefitsystems.py] is
    not part of the source tree).  It refers to its input table, keeps
    the two legislations it was built with, the names disabled on it
    and its own cache of computed columns. *)
Record TaxBenefitSystem : Type := {
  tbs_prestation_by_name : list (string * Prestation);
  _param : L;
  _default_param : L;
  _inputs : option nat;
  disabled : list string;
  computed : gmap string (list V);
  decomp_file : option string }.

(** Tables are objects: two attributes can name one table. *)
Inductive object : Type :=
| InputTable (t : DataTable)
| OutputTable (t : TaxBenefitSystem).

(** Modelled from the spec: the constructor
    [TaxBenefitSystem(prestation_by_name, P, P_default, ...)] makes a
    table with an empty cache. *)
Definition new_table (prestation_by_name : list (string * Prestation))
    (param default_param : L) : TaxBenefitSystem :=
  {| tbs_prestation_by_name := prestation_by_name;
     _param := param; _default_param := default_param;
     _inputs := None; disabled := []; computed := ∅; decomp_file := None |}.

(** Modelled from the spec: [set_inputs] attaches the input table. *)
Definition set_inputs (inputs : nat) (t : TaxBenefitSystem) : TaxBenefitSystem :=
  {| tbs_prestation_by_name := tbs_prestation_by_name t;
     _param := _param t; _default_param := _default_param t;
     _inputs := Some inputs; disabled := disabled t; computed := computed t;
     decomp_file := decomp_file t |}.

(** Modelled from the spec: [disable] records the names of the
    variables that stay at their default. *)
Definition disable (names : option (list string)) (t : TaxBenefitSystem)
    : TaxBenefitSystem :=
  {| tbs_prestation_by_name := tbs_prestation_by_name t;
     _param := _param t; _default_param := _default_param t;
     _inputs := _inputs t; disabled := default [] names; computed := computed t;
     decomp_file := decomp_file t |}.

(** Modelled from the spec: [reset] empties the cache and forgets the
    disabled names. *)
Definition reset (t : TaxBenefitSystem) : TaxBenefitSystem :=
  {| tbs_prestation_by_name := tbs_prestation_by_name t;
     _param := _param t; _default_param := _default_param t;
     _inputs := _inputs t; disabled := []; computed := ∅;
     decomp_file := decomp_file t |}.

Definition set_decomp_file (file : option string) (t : TaxBenefitSystem)
    : TaxBenefitSystem :=
  {| tbs_prestation_by_name := tbs_prestation_by_name t;
     _param := _param t; _default_param := _default_param t;
     _inputs := _inputs t; disabled := disabled t; computed := computed t;
     decomp_file := match file with Some f => Some f | None => decomp_file t end |}.

Definition set_computed (cache : gmap string (list V)) (t : TaxBenefitSystem)
    : TaxBenefitSystem :=
  {| tbs_prestation_by_name := tbs_prestation_by_name t;
     _param := _param t; _default_param := _default_param t;
     _inputs := _inputs t; disabled := disabled t; computed := cache;
     decomp_file := decomp_file t |}.

(** Modelled from the spec: a request for a column is answered by
    the input if there is one, else by the cache of the table. *)
Definition lookup_column (inputs cache : gmap string (list V)) (column : string)
    : option (list V) :=
  match inputs !! column with
  | Some array => Some array
  | None => cache !! column
  end.

(** Modelled from the spec: one variable of the table; a disabled
    one is left alone, a cached one is not computed again, any other
    is computed from the columns at hand under the legislation of the
    table and cached. *)
Definition calculate_one (inputs : gmap string (list V)) (param default_param : L)
    (off : list string) (cache : gmap string (list V))
    (item : string * Prestation) : gmap string (list V) :=
  if bool_decide (item.1 ∈ off) then cache
  else match cache !! item.1 with
       | Some _ => cache
       | None =>
           <[item.1 := func item.2 (lookup_column inputs cache) param default_param]> cache
       end.

(** Modelled from the spec: [calculate] goes through every variable
    in the order of the registry; the data returned are the computed
    columns. *)
Definition calculate (inputs : gmap string (list V)) (t : TaxBenefitSystem)
    : gmap string (list V) * TaxBenefitSystem :=
  let cache :=
    foldl (calculate_one inputs (_param t) (_default_param t) (disabled t))
          (computed t) (tbs_prestation_by_name t) in
  (cache, set_computed cache t).

(** Method calls through a reference. *)
Definition call (r : nat) (method : TaxBenefitSystem → TaxBenefitSystem)
    (h : gmap nat object) : gmap nat object :=
  match h !! r with
  | Some (OutputTable t) => <[r := OutputTable (method t)]> h
  | _ => h
  end.

Definition input_columns (h : gmap nat object) (t : TaxBenefitSystem)
    : gmap string (list V) :=
  match _inputs t ≫= (h !!.) with
  | Some (InputTable d) => table d
  | _ => ∅
  end.

Definition call_calculate (r : nat) (h : gmap nat object)
    : gmap string (list V) * gmap nat object :=
  match h !! r with
  | Some (OutputTable t) =>
      let '(data, t') := calculate (input_columns h t) t in
      (data, <[r := OutputTable t']> h)
  | _ => (∅, h)
  end.

(** The attributes of the simulation that [_preproc] and [_compute]
    read or write (the [io_column_by_*] bookkeeping is left out). *)
Record Simulation : Type := {
  P : L;
  P_default : L;
  input_table : nat;
  output_table : option nat;
  output_table_default : option nat;
  prestation_by_name : list (string * Prestation);
  reforme : bool;
  disabled_prestations : option (list string);
  data : option (gmap string (list V));
  data_default : option (gmap string (list V)) }.

Definition set_output_tables (self : Simulation) (out out_default : nat) : Simulation :=
  {| P := P self; P_default := P_default self; input_table := input_table self;
     output_table := Some out; output_table_default := Some out_default;
     prestation_by_name := prestation_by_name self; reforme := reforme self;
     disabled_prestations := disabled_prestations self;
     data := data self; data_default := data_default self |}.

Definition set_data (self : Simulation) (d d_default : gmap string (list V)) : Simulation :=
  {| P := P self; P_default := P_default self; input_table := input_table self;
     output_table := output_table self; output_table_default := output_table_default self;
     prestation_by_name := prestation_by_name self; reforme := reforme self;
     disabled_prestations := disabled_prestations self;
     data := Some d; data_default := Some d_default |}.

(** Allocation of a new object at an unused address. *)
Definition alloc (o : object) (h : gmap nat object) : nat * gmap nat object :=
  let r := fresh (dom h) in (r, <[r := o]> h).

(** [Simulation._preproc]. *)
Definition _preproc (self : Simulation) (h : gmap nat object)
    : Simulation * gmap nat object :=
  let '(out, h) :=
    alloc (OutputTable (set_inputs (input_table self)
             (new_table (prestation_by_name self) (P self) (P_default self)))) h in
  let '(out_default, h) :=
    if reforme self
    then alloc (OutputTable (set_inputs (input_table self)
                  (new_table (prestation_by_name self) (P_default self) (P_default self)))) h
    else (out, h) in
  let h := call out (disable (disabled_prestations self)) h in
  let h := call out_default (disable (disabled_prestations self)) h in
  (set_output_tables self out out_default, h).

(** [Simulation._compute]; the keyword arguments its callers pass are
    [decomp_file] or nothing. *)
Definition _compute (kw_decomp_file : option string) (self : Simulation)
    (h : gmap nat object) : Simulation * gmap nat object :=
  let '(self, h) := _preproc self h in
  match output_table self, output_table_default self with
  | Some out, Some out_default =>
      let h := call out (set_decomp_file kw_decomp_file) h in
      let h := call out_default (set_decomp_file kw_decomp_file) h in
      let '(d, h) := call_calculate out h in
      if reforme self
      then
        let h := call out_default reset h in
        let h := call out_default (disable (disabled_prestations self)) h in
        let '(d_default, h) := call_calculate out_default h in
        (set_data self d d_default, h)
      else (set_data self d d, h)
  | _, _ => (self, h)
  end.

(** A store in which the two output tables and the input table of a
    simulation are found at their addresses. *)
Definition view (out out_default inputs : nat) (d : DataTable)
    (h : gmap nat object) (t t_default : TaxBenefitSystem) : Prop :=
  h !! out = Some (OutputTable t)
  ∧ h !! out_default = Some (OutputTable t_default)
  ∧ h !! inputs = Some (InputTable d).

(** What a table with an empty cache computes from the inputs under
    legislation [param]. *)
Definition fresh_calculation (self : Simulation) (inputs : gmap string (list V))
    (param : L) : gmap string (list V) :=
  foldl (calculate_one inputs param (P_default self)
           (default [] (disabled_prestations self)))
        ∅ (prestation_by_name self).

End tables.

Arguments func {V L} p.
Arguments table {V} d.
Arguments tbs_prestation_by_name {V L} t.
Arguments _param {V L} t.
Arguments _default_param {V L} t.
Arguments _inputs {V L} t.
Arguments disabled {V L} t.
Arguments computed {V L} t.
Arguments decomp_file {V L} t.
Arguments InputTable {V L} t.
Arguments OutputTable {V L} t.
Arguments new_table {V L} prestation_by_name param default_param.
Arguments set_inputs {V L} inputs t.
Arguments disable {V L} names t.
Arguments reset {V L} t.
Arguments set_decomp_file {V L} file t.
Arguments set_computed {V L} cache t.
Arguments lookup_column {V} inputs cache column.
Arguments calculate_one {V L} inputs param default_param off cache item.
Arguments calculate {V L} inputs t.
Arguments call {V L} r method h.
Arguments input_columns {V L} h t.
Arguments call_calculate {V L} r h.
Arguments P {V L} s.
Arguments P_default {V L} s.
Arguments input_table {V L} s.
Arguments output_table {V L} s.
Arguments output_table_default {V L} s.
Arguments prestation_by_name {V L} s.
Arguments reforme {V L} s.
Arguments disabled_prestations {V L} s.
Arguments data {V L} s.
Arguments data_default {V L} s.
Arguments set_output_tables {V L} self out out_default.
Arguments set_data {V L} self d d_default.
Arguments alloc {V L} o h.
Arguments _preproc {V L} self h.
Arguments _compute {V L} kw_decomp_file self h.
Arguments fresh_calculation {V L} self inputs param.
Arguments view {V L} out out_default inputs d h t t_default.

End legacy_simulations.

(** ** Constructor calls and the formula-bearing classes ([columns.py]) *)
Module prestations.
Import columns.

(** The keyword parameters of [Column.__init__]. *)
Definition Column_init_keywords : list string :=
  ["label"; "cerfa_field"; "default"; "end"; "entity"; "info";
   "legislative_input"; "start"; "survey_only"; "val_type"].

(** The keyword parameters of [Prestation.__init__] besides [func]. *)
Definition Prestation_init_keywords : list string :=
  ["entity"; "label"; "start"; "end"; "val_type"; "freq"; "survey_only"].

(** Binding of keyword arguments to a signature without a [**]
    parameter: a keyword that is no parameter is a [TypeError]. *)
Definition accepts (parameters : list string) (kwargs : list (string * pyvalue)) : bool :=
  forallb (λ item : string * pyvalue, bool_decide (item.1 ∈ parameters)) kwargs.

(** The argument bound to a parameter, or the default of the signature. *)
Definition argument (kwargs : list (string * pyvalue)) (parameter : string)
    (default : pyvalue) : pyvalue :=
  from_option id default ((list_to_map kwargs : gmap string pyvalue) !! parameter).

(** A call of [Column.__init__] with keyword arguments on a new
    instance of class [c]; [enum] is what [EnumCol.__init__] was given. *)
Definition Column_init_call (c : column_class) (enum : option Enum)
    (kwargs : list (string * pyvalue)) : result Column :=
  if accepts Column_init_keywords kwargs
  then Ok (__init__ c
             {| kw_label := argument kwargs "label" PyNone;
                kw_cerfa_field := argument kwargs "cerfa_field" PyNone;
                kw_default := argument kwargs "default" PyNone;
                kw_end := argument kwargs "end" PyNone;
                kw_entity := argument kwargs "entity" PyNone;
                kw_info := argument kwargs "info" PyNone;
                kw_legislative_input :=
                  argument kwargs "legislative_input" (PyBool true);
                kw_start := argument kwargs "start" PyNone;
                kw_survey_only := argument kwargs "survey_only" (PyBool false);
                kw_val_type := argument kwargs "val_type" PyNone;
                kw_enum := enum |})
  else Raise TypeError.

(** The column part of the five classes that bear a formula. *)
Inductive prestation_class : Type :=
| class_Prestation | class_BoolPresta | class_EnumPresta
| class_FloatPresta | class_IntPresta.

Definition column_part (p : prestation_class) : column_class :=
  match p with
  | class_Prestation => class_Column
  | class_BoolPresta => class_BoolCol
  | class_EnumPresta => class_EnumCol
  | class_FloatPresta => class_FloatCol
  | class_IntPresta => class_IntCol
  end.

(** [Prestation.__init__], called with [func] and keyword arguments.
    Its [super] call hands seven keyword arguments, [freq] among them,
    to the next [__init__] of the class: [Column.__init__], reached
    through [EnumCol.__init__] for an [EnumPresta].  The assertion on
    [func] comes after that call. *)
Definition Prestation_init_call (p : prestation_class) (enum : option Enum)
    (func_is_none : bool) (kwargs : list (string * pyvalue)) : result Column :=
  if accepts Prestation_init_keywords kwargs
  then
    match Column_init_call (column_part p) enum
            [("label", argument kwargs "label" PyNone);
             ("entity", argument kwargs "entity" PyNone);
             ("start", argument kwargs "start" PyNone);
             ("end", argument kwargs "end" PyNone);
             ("val_type", argument kwargs "val_type" PyNone);
             ("freq", argument kwargs "freq" PyNone);
             ("survey_only", argument kwargs "survey_only" (PyBool false))] with
    | Raise exn => Raise exn
    | Ok column =>
        if func_is_none
        then Raise (AssertionError
                      "A function to compute the prestation should be provided")
        else Ok column
    end
  else Raise TypeError.

(** The constructors: [Prestation(func, **kwargs)] runs
    [Prestation.__init__]; the four subclasses first run the
    [__init__] of their column class on the keyword arguments, then
    [Prestation.__init__].  In the [super] call of an [EnumPresta] no
    [enum] is passed on. *)
Definition construct (p : prestation_class) (enum : option Enum)
    (func_is_none : bool) (kwargs : list (string * pyvalue)) : result Column :=
  match p with
  | class_Prestation => Prestation_init_call p None func_is_none kwargs
  | class_EnumPresta =>
      match Column_init_call (column_part p) enum kwargs with
      | Raise exn => Raise exn
      | Ok _ => Prestation_init_call p None func_is_none kwargs
      end
  | _ =>
      match Column_init_call (column_part p) None kwargs with
      | Raise exn => Raise exn
      | Ok _ => Prestation_init_call p None func_is_none kwargs
      end
  end.

End prestations.

(** ** Reading a serialized record *)
Module records.
Import columns.

(** [d[key]] on the record [to_json] returns; [None] for a missing key. *)
Definition item (d : list (string * json)) (key : string) : option json :=
  (list_to_map d : gmap string json) !! key.

(** The entry of an attribute: none for [None], the value otherwise. *)
Definition entry (v : pyvalue) : option json :=
  if is_none v then None else Some (JValue v).

End records.

(** ** The constructor of the simulation ([simulations.py]) *)
Module simulation_init.

(** [Simulation.__init__].  The tax and benefit system is known by its
    method [get_compact_legislation]; [None] is the argument left out.
    A failed [assert] without message is an [AssertionError] with an
    empty one. *)
Definition __init__ {L : Type} (compact_legislation : option L) (date : pyvalue)
    (tax_benefit_system : option (pyvalue → L)) : result (simulations.Simulation L) :=
  match date with
  | PyNone => Raise (AssertionError "")
  | _ =>
      match tax_benefit_system with
      | None => Raise (AssertionError "")
      | Some get_compact_legislation =>
          Ok {| simulations.compact_legislation :=
                  match compact_legislation with
                  | Some legislation => legislation
                  | None => get_compact_legislation date
                  end;
                simulations.date := date;
                simulations.default_compact_legislation := get_compact_legislation date;
                simulations.entities := None;
                simulations.entity_by_column_name := None |}
      end
  end.

End simulation_init.

(** ** Scenarios *)
Module examples.
Import columns.

Definition kwargs_with_enum (e : Enum) : init_kwargs :=
  {| kw_label := PyNone; kw_cerfa_field := PyNone; kw_default := PyNone;
     kw_end := PyNone; kw_entity := PyNone; kw_info := PyNone;
     kw_legislative_input := PyBool true; kw_start := PyNone;
     kw_survey_only := PyBool false; kw_val_type := PyNone;
     kw_enum := Some e |}.

(** The enumeration 0: "single", 1: "married". *)
Definition marital : Enum :=
  {| _vars := <[1 := "married"]> (<[0 := "single"]> ∅) |}.

Definition marital_status : Column :=
  __init__ class_EnumCol (kwargs_with_enum marital).



(** [IntCol(label = 'Age')]. *)
Definition age_column : Column :=
  __init__ class_IntCol
    {| kw_label := PyStr "Age"; kw_cerfa_field := PyNone; kw_default := PyNone;
       kw_end := PyNone; kw_entity := PyNone; kw_info := PyNone;
       kw_legislative_input := PyBool true; kw_start := PyNone;
       kw_survey_only := PyBool false; kw_val_type := PyNone;
       kw_enum := None |}.

(** A dependency chain A -> B -> C -> A on one entity of three
    members. *)
Definition chain_formula (inputs : list string) : simulations.Formula Z unit :=
  {| simulations.required_inputs := inputs;
     simulations.compute_fn := λ arrays _, concat arrays |}.

Definition individus : simulations.Entity Z unit :=
  {| simulations.column_by_name :=
       list_to_map [("A", age_column); ("B", age_column); ("C", age_column);
                    ("age", age_column)];
     simulations.holder_by_name := ∅;
     simulations.formula_by_name :=
       list_to_map [("A", chain_formula ["B"]); ("B", chain_formula ["C"]);
                    ("C", chain_formula ["A"])];
     simulations.member_count := 3;
     simulations.default_value := λ _, 0 |}.

Definition new_simulation : simulations.world Z unit :=
  {| simulations.sim :=
       {| simulations.compact_legislation := tt;
          simulations.date := PyDate 2014 1 1;
          simulations.default_compact_legislation := tt;
          simulations.entities := None;
          simulations.entity_by_column_name := None |};
     simulations.heap := {[ 0%nat := individus ]} |}.

Definition chain_simulation : simulations.world Z unit :=
  simulations.set_entities new_simulation [("ind", 0%nat)].

(** The reform scenario: salaries 1000, 0 and 500, a tax at the rate
    of the legislation, 0.1 under the reform and 0.2 under the default
    legislation. *)
Record legislation : Type := { rate : Q }.

Definition tax : legacy_simulations.Prestation Q legislation :=
  {| legacy_simulations.func := λ column param _,
       (λ salary, Qred (salary * rate param)) <$> default [] (column "salary") |}.

Definition survey : legacy_simulations.DataTable Q :=
  {| legacy_simulations.table := {[ "salary" := [1000#1; 0#1; 500#1] ]} |}.

Definition reform_heap : gmap nat (legacy_simulations.object Q legislation) :=
  {[ 0%nat := legacy_simulations.InputTable survey ]}.

Definition reform_simulation : legacy_simulations.Simulation Q legislation :=
  {| legacy_simulations.P := {| rate := 1#10 |};
     legacy_simulations.P_default := {| rate := 1#5 |};
     legacy_simulations.input_table := 0%nat;
     legacy_simulations.output_table := None;
     legacy_simulations.output_table_default := None;
     legacy_simulations.prestation_by_name := [("tax", tax)];
     legacy_simulations.reforme := true;
     legacy_simulations.disabled_prestations := None;
     legacy_simulations.data := None;
     legacy_simulations.data_default := None |}.

End examples.

(** ** Further scenarios *)
Module more_examples.
Import columns.

(** [EnumCol()]: an enumerated column that was given no enumeration. *)
Definition bare_enum_column : Column := __init__ class_EnumCol no_kwargs.

(** [EnumCol(enum = Enum([]))]. *)
Definition empty_enum : Enum := {| _vars := ∅ |}.

Definition empty_enum_column : Column :=
  __init__ class_EnumCol (examples.kwargs_with_enum empty_enum).

(** Two labels of one slug: 0: "Single", 1: "single", 2: "married". *)
Definition doubled : Enum :=
  {| _vars := <[2 := "married"]> (<[1 := "single"]> (<[0 := "Single"]> ∅)) |}.

(** The column of the marital status once a [freq] attribute, a label
    and an end of validity have been set on it. *)
Definition dated_marital_status : Column :=
  {| cls := class_EnumCol; cerfa_field := PyNone; _default := PyInt 0;
     end_ := PyDate 2014 12 31; entity := PyStr "ind"; info := PyNone;
     label := PyStr "Marital status"; legislative_input := true;
     name := PyNone; start := PyNone; survey_only := false;
     val_type := PyNone; freq := Some (PyStr "year");
     enum := Some examples.marital; index_by_slug := None |}.

(** A second entity that registers "age" as the first one does. *)
Definition menages : simulations.Entity Z unit :=
  {| simulations.column_by_name :=
       list_to_map [("age", examples.age_column); ("loyer", examples.age_column)];
     simulations.holder_by_name := ∅;
     simulations.formula_by_name := ∅;
     simulations.member_count := 2;
     simulations.default_value := λ _, 0 |}.

Definition two_entities : simulations.world Z unit :=
  {| simulations.sim := simulations.sim examples.new_simulation;
     simulations.heap := {[ 0%nat := examples.individus; 1%nat := menages ]} |}.

(** The reform scenario with the reform mode switched off. *)
Definition plain_simulation : legacy_simulations.Simulation Q examples.legislation :=
  {| legacy_simulations.P := {| examples.rate := 1#10 |};
     legacy_simulations.P_default := {| examples.rate := 1#5 |};
     legacy_simulations.input_table := 0%nat;
     legacy_simulations.output_table := None;
     legacy_simulations.output_table_default := None;
     legacy_simulations.prestation_by_name := [("tax", examples.tax)];
     legacy_simulations.reforme := false;
     legacy_simulations.disabled_prestations := None;
     legacy_simulations.data := None;
     legacy_simulations.data_default := None |}.

End more_examples.

(** * Properties *)

(** ** Converters *)
Module conv_facts.
Import conv.

Lemma test_isinstance_int (z : Z) (classes : list pyclass) :
  int ∈ classes → test_isinstance classes (PyInt z) = Ok (PyInt z, None).
Proof.
  intros Hin. unfold test_isinstance, test.
  replace (existsb (isinstance (PyInt z)) classes) with true; [done|].
  symmetry. apply existsb_exists. exists int. split; [|done].
  by apply list_elem_of_In.
Qed.

Lemma test_isinstance_str (s : string) (classes : list pyclass) :
  basestring ∈ classes → test_isinstance classes (PyStr s) = Ok (PyStr s, None).
Proof.
  intros Hin. unfold test_isinstance, test.
  replace (existsb (isinstance (PyStr s)) classes) with true; [done|].
  symmetry. apply existsb_exists. exists basestring. split; [|done].
  by apply list_elem_of_In.
Qed.

Lemma test_in_int {A} (d : gmap Z A) (z : Z) :
  test_in d (PyInt z)
  = Ok (PyInt z, if bool_decide (is_Some (d !! z)) then None else Some MustBelongTo).
Proof. unfold test_in, test, py_in_codes. simpl. by case_bool_decide. Qed.

End conv_facts.

(** ** Column descriptors *)
Module columns_spec.
Import columns.

(** C6.  The pipeline of an age column, on an integer input, succeeds
    exactly when the integer is non-negative or is -9999, the default
    of the class that stands for an unknown age; the value is returned
    as it is; every other integer, such as -1, is refused with a
    validation error. *)
Theorem AgesCol_accepts_nonnegative_or_sentinel (self : Column) (z : Z) :
  (AgesCol_json_to_python self (PyInt z) = Ok (PyInt z, None) ↔ 0 ≤ z ∨ z = -9999)
  ∧ (∃ outcome, AgesCol_json_to_python self (PyInt z) = Ok (PyInt z, outcome))
  ∧ (¬ (0 ≤ z ∨ z = -9999)
     ↔ ∃ e, AgesCol_json_to_python self (PyInt z) = Ok (PyInt z, Some e))
  ∧ AgesCol_json_to_python self (PyInt (-1))
    = Ok (PyInt (-1), Some (conv.MustEqual (-9999)))
  ∧ AgesCol_json_to_python self (PyInt (-9999)) = Ok (PyInt (-9999), None)
  ∧ class_default class_AgesCol = PyInt (-9999).
Proof.
  assert (Hrun : AgesCol_json_to_python self (PyInt z)
                 = Ok (PyInt z, if bool_decide (0 ≤ z ∨ z = -9999)
                                then None else Some (conv.MustEqual (-9999)))).
  { unfold AgesCol_json_to_python, IntCol_json_to_python. simpl.
    unfold conv.first_match, conv.test_greater_or_equal, conv.test_equals,
      conv.test, py_eq. simpl.
    destruct (Z.leb_spec 0 z) as [Hle|Hlt].
    - rewrite bool_decide_eq_true_2 by lia. done.
    - destruct (Z.eqb_spec z (-9999)) as [->|Hne].
      + rewrite bool_decide_eq_true_2 by lia. done.
      + rewrite bool_decide_eq_false_2 by lia. done. }
  rewrite Hrun. split; [|split; [by eexists|repeat split]].
  - split; [|by intros H; rewrite bool_decide_eq_true_2].
    case_bool_decide; [done|discriminate].
  - intros H. rewrite bool_decide_eq_false_2 by done. eauto.
  - intros [e He] H. rewrite bool_decide_eq_true_2 in He by done. discriminate.
Qed.

(** *** The least code *)

Lemma foldr_min_elem (k : Z) (ks : list Z) :
  foldr Z.min k ks ∈ k :: ks ∧ ∀ j, j ∈ k :: ks → foldr Z.min k ks ≤ j.
Proof.
  induction ks as [|x ks [IHin IHle]]; simpl.
  - split; [apply list_elem_of_here|].
    intros j Hj. apply list_elem_of_singleton in Hj. lia.
  - split.
    + destruct (Z.min_spec x (foldr Z.min k ks)) as [[_ ->]|[_ ->]].
      * apply list_elem_of_further, list_elem_of_here.
      * apply elem_of_cons in IHin as [->|Hin].
        -- apply list_elem_of_here.
        -- by do 2 apply list_elem_of_further.
    + intros j Hj. apply elem_of_cons in Hj as [->|Hj].
      * specialize (IHle k (list_elem_of_here _ _)). lia.
      * apply elem_of_cons in Hj as [->|Hj]; [lia|].
        specialize (IHle j (list_elem_of_further _ _ _ Hj)). lia.
Qed.

Lemma elem_of_keys (d : gmap Z string) (j : Z) :
  j ∈ (map_to_list d).*1 ↔ is_Some (d !! j).
Proof.
  rewrite list_elem_of_fmap. split.
  - intros [[j' v] [-> Hin]]. apply elem_of_map_to_list in Hin. by exists v.
  - intros [v Hv]. exists (j, v). split; [done|]. by apply elem_of_map_to_list.
Qed.

Lemma min_key_spec (d : gmap Z string) (k : Z) :
  min_key d = Some k → is_Some (d !! k) ∧ ∀ j, is_Some (d !! j) → k ≤ j.
Proof.
  unfold min_key. destruct ((map_to_list d).*1) as [|x xs] eqn:Hkeys; [done|].
  intros [= <-]. destruct (foldr_min_elem x xs) as [Hin Hle]. split.
  - apply elem_of_keys. by rewrite Hkeys.
  - intros j Hj. apply Hle. rewrite <- Hkeys. by apply elem_of_keys.
Qed.

Lemma min_key_nonempty (d : gmap Z string) : d ≠ ∅ → is_Some (min_key d).
Proof.
  intros Hne. unfold min_key.
  destruct ((map_to_list d).*1) as [|x xs] eqn:Hkeys; [|by eexists].
  exfalso. apply Hne. apply map_to_list_empty_iff.
  by apply fmap_nil_inv in Hkeys.
Qed.

(** The fallback constant exists as soon as the enumeration has a
    code, and it is the default when that is a code, else the least
    code. *)
Lemma enum_default_spec (self : Column) (e : Enum) :
  _vars e ≠ ∅ →
  ∃ fallback, enum_default self e = Ok fallback ∧
    ((_default self ≠ PyNone ∧ py_in_codes (_default self) (_vars e) = true
      ∧ fallback = _default self)
     ∨ ((_default self = PyNone ∨ py_in_codes (_default self) (_vars e) = false)
        ∧ ∃ k, fallback = PyInt k ∧ is_Some (_vars e !! k)
               ∧ ∀ j, is_Some (_vars e !! j) → k ≤ j)).
Proof.
  intros Hne. unfold enum_default.
  destruct (negb (is_none (_default self)) && py_in_codes (_default self) (_vars e))
    eqn:Hvalid.
  - apply andb_true_iff in Hvalid as [Hnone Hin]. eexists. split; [done|].
    left. repeat split; [|done]. intros Heq. rewrite Heq in Hnone. done.
  - destruct (min_key_nonempty _ Hne) as [k Hk]. rewrite Hk.
    eexists. split; [done|]. right. split.
    + apply andb_false_iff in Hvalid as [Hnone|Hin]; [left|by right].
      destruct (_default self); done.
    + exists k. destruct (min_key_spec _ _ Hk). done.
Qed.

(** *** The pipeline of an enumeration, case by case *)
Section enum_pipeline.
Variable int_literal : string → option Z.
Variable int_of_float : string → result Z.
Variable slugify : string → string.
Variables (e : Enum) (index : gmap string Z) (fallback : pyvalue).

Local Abbreviation run := (enum_pipeline int_literal int_of_float slugify e index fallback).

Lemma run_none : run PyNone = Ok (fallback, None).
Proof. reflexivity. Qed.

Lemma run_int (z : Z) :
  run (PyInt z)
  = Ok (PyInt z, if bool_decide (is_Some (_vars e !! z))
                 then None else Some conv.MustBelongTo).
Proof.
  cbv [enum_pipeline conv.pipe conv.condition conv.test_isinstance conv.test
       conv.anything_to_int conv.test_in conv.default py_in_codes int_value
       existsb conv.isinstance orb].
  by case_bool_decide.
Qed.

(** A string that [int] reads, or that [float] reads as a finite
    number, goes the way of the integer it gives. *)
Lemma run_literal (s : string) (z : Z) :
  int_literal s = Some z → run (PyStr s) = run (PyInt z).
Proof.
  intros Hlit. rewrite run_int.
  cbv [enum_pipeline conv.pipe conv.condition conv.test_isinstance conv.test
       conv.anything_to_int conv.test_in conv.default py_in_codes int_value
       existsb conv.isinstance orb].
  rewrite Hlit. by case_bool_decide.
Qed.

Lemma run_float (s : string) (z : Z) :
  int_literal s = None → int_of_float s = Ok z → run (PyStr s) = run (PyInt z).
Proof.
  intros Hlit Hfloat. rewrite run_int.
  cbv [enum_pipeline conv.pipe conv.condition conv.test_isinstance conv.test
       conv.anything_to_int conv.test_in conv.default py_in_codes int_value
       existsb conv.isinstance orb].
  rewrite Hlit, Hfloat. by case_bool_decide.
Qed.

(** The exception of [int(float(s))] that is no [ValueError] escapes
    from the whole pipeline. *)
Lemma run_escape (s : string) (exn : pyexn) :
  int_literal s = None → int_of_float s = Raise exn → exn ≠ ValueError →
  run (PyStr s) = Raise exn.
Proof.
  intros Hlit Hfloat Hexn.
  cbv [enum_pipeline conv.pipe conv.condition conv.test_isinstance conv.test
       conv.anything_to_int conv.test_in conv.default py_in_codes int_value
       existsb conv.isinstance orb].
  rewrite Hlit, Hfloat. by destruct exn.
Qed.

(** A string that reads as no number goes the way of the labels. *)
Lemma run_label (s : string) :
  int_literal s = None → int_of_float s = Raise ValueError → slugify s ≠ "" →
  run (PyStr s)
  = Ok match index !! slugify s with
       | Some code => (PyInt code, None)
       | None => (PyStr (slugify s), Some conv.MustBelongTo)
       end.
Proof.
  intros Hlit Hfloat Hslug.
  cbv [enum_pipeline conv.pipe conv.condition conv.test_isinstance conv.test
       conv.anything_to_int conv.input_to_slug conv.test_in_slugs conv.function
       conv.default existsb conv.isinstance orb].
  rewrite Hlit, Hfloat. rewrite bool_decide_eq_false_2 by done.
  destruct (index !! slugify s) as [code|] eqn:Hcode.
  - rewrite bool_decide_eq_true_2 by (by eexists). by rewrite Hcode.
  - rewrite bool_decide_eq_false_2 by (by intros [? ?]). done.
Qed.

Lemma run_blank (s : string) :
  int_literal s = None → int_of_float s = Raise ValueError → slugify s = "" →
  run (PyStr s) = Ok (fallback, None).
Proof.
  intros Hlit Hfloat Hslug.
  cbv [enum_pipeline conv.pipe conv.condition conv.test_isinstance conv.test
       conv.anything_to_int conv.input_to_slug conv.test_in_slugs conv.function
       conv.default existsb conv.isinstance orb].
  rewrite Hlit, Hfloat. rewrite bool_decide_eq_true_2 by done. done.
Qed.

End enum_pipeline.

Lemma json_to_python_enum (int_literal : string → option Z)
    (int_of_float : string → result Z) (slugify : string → string)
    (self : Column) (e : Enum) (fallback : pyvalue) :
  enum self = Some e → enum_default self e = Ok fallback →
  (EnumCol_json_to_python int_literal int_of_float slugify self).1
  = Ok (enum_pipeline int_literal int_of_float slugify e (index_in_use slugify self e) fallback)
  ∧ index_by_slug (EnumCol_json_to_python int_literal int_of_float slugify self).2
    = Some (index_in_use slugify self e).
Proof.
  intros He Hd. unfold EnumCol_json_to_python, index_in_use. rewrite He.
  destruct (index_by_slug self) as [i|] eqn:Hi; simpl; rewrite Hd; simpl; done.
Qed.

Lemma marital_nonempty : _vars examples.marital ≠ ∅.
Proof.
  intros Hempty. apply (f_equal (λ d : gmap Z string, d !! 0)) in Hempty.
  vm_compute in Hempty. discriminate.
Qed.

(** *** Accepted inputs of an enumeration *)




(** *** Absent and invalid inputs of an enumeration *)

(** C3, as the code has it.  For a descriptor with a non-empty
    enumeration the fallback is the default of the descriptor when that
    is a code, else the least code.  An absent input ([None], or a
    string that reads as no number and has an empty slug) is replaced
    by the fallback.  An integer that is not a code, a string that
    reads as such an integer, and a string that reads as no number and
    whose slug is not in the label index are refused with an error: no
    fallback is taken for them.  A string on which [int(float(s))]
    raises another exception than [ValueError], as one that reads as an
    infinite float does, makes the validation raise that exception. *)
Theorem enum_fallback_on_absent_only (int_literal : string → option Z)
    (int_of_float : string → result Z) (slugify : string → string)
    (self : Column) (e : Enum) :
  enum self = Some e → _vars e ≠ ∅ →
  ∃ converter fallback,
    (EnumCol_json_to_python int_literal int_of_float slugify self).1 = Ok converter
    ∧ ((_default self ≠ PyNone ∧ py_in_codes (_default self) (_vars e) = true
        ∧ fallback = _default self)
       ∨ ((_default self = PyNone ∨ py_in_codes (_default self) (_vars e) = false)
          ∧ ∃ k, fallback = PyInt k ∧ is_Some (_vars e !! k)
                 ∧ ∀ j, is_Some (_vars e !! j) → k ≤ j))
    ∧ converter PyNone = Ok (fallback, None)
    ∧ (∀ s, int_literal s = None → int_of_float s = Raise ValueError →
         slugify s = "" → converter (PyStr s) = Ok (fallback, None))
    ∧ (∀ z, _vars e !! z = None →
         converter (PyInt z) = Ok (PyInt z, Some conv.MustBelongTo))
    ∧ (∀ s z,
         int_literal s = Some z ∨ (int_literal s = None ∧ int_of_float s = Ok z) →
         _vars e !! z = None →
         converter (PyStr s) = Ok (PyInt z, Some conv.MustBelongTo))
    ∧ (∀ s, int_literal s = None → int_of_float s = Raise ValueError →
         slugify s ≠ "" →
         index_in_use slugify self e !! slugify s = None →
         converter (PyStr s) = Ok (PyStr (slugify s), Some conv.MustBelongTo))
    ∧ (∀ s exn, int_literal s = None → int_of_float s = Raise exn →
         exn ≠ ValueError → converter (PyStr s) = Raise exn).
Proof.
  intros He Hne.
  destruct (enum_default_spec self e Hne) as (fallback & Hd & Hfallback).
  destruct (json_to_python_enum int_literal int_of_float slugify self e fallback He Hd)
    as [Hconv _].
  eexists. exists fallback. split; [exact Hconv|]. split; [exact Hfallback|].
  assert (Hint : ∀ z, _vars e !! z = None →
            enum_pipeline int_literal int_of_float slugify e
              (index_in_use slugify self e) fallback (PyInt z)
            = Ok (PyInt z, Some conv.MustBelongTo)).
  { intros z Hz. rewrite run_int. rewrite bool_decide_eq_false_2; [done|].
    rewrite Hz. by intros [? ?]. }
  split; [apply run_none|]. split; [|split; [exact Hint|split; [|split]]].
  - intros s Hlit Hfloat Hslug. by apply run_blank.
  - intros s z [Hlit|[Hlit Hfloat]] Hz.
    + rewrite (run_literal _ _ _ _ _ _ _ _ Hlit). by apply Hint.
    + rewrite (run_float _ _ _ _ _ _ _ _ Hlit Hfloat). by apply Hint.
  - intros s Hlit Hfloat Hslug Hcode. rewrite run_label by done. by rewrite Hcode.
  - intros s exn. apply run_escape.
Qed.

(** On the enumeration 0: "single", 1: "married" with the default 0, an
    absent input becomes 0, and the input "inf" makes the validation
    raise [OverflowError]. *)
Lemma enum_fallback_on_absent_only_witness :
  (validate ascii_text.int_literal ascii_text.int_of_float ascii_text.slugify
     examples.marital_status PyNone).1 = Ok (PyInt 0, None)
  ∧ (validate ascii_text.int_literal ascii_text.int_of_float ascii_text.slugify
       examples.marital_status (PyStr "inf")).1 = Raise OverflowError.
Proof.
  destruct (enum_fallback_on_absent_only ascii_text.int_literal
              ascii_text.int_of_float ascii_text.slugify
              examples.marital_status examples.marital eq_refl marital_nonempty)
    as (converter & fallback & Hconv & Hfallback & Hnone & _ & _ & _ & _ & Hescape).
  unfold validate.
  destruct (EnumCol_json_to_python ascii_text.int_literal ascii_text.int_of_float
              ascii_text.slugify examples.marital_status) as [[c|exn] self'];
    simpl in Hconv; [|discriminate].
  injection Hconv as ->. simpl. split.
  - rewrite Hnone. do 2 f_equal.
    destruct Hfallback as [(_ & _ & ->)|[[Hd|Hd] _]];
      [reflexivity | discriminate Hd | vm_compute in Hd; discriminate Hd].
  - apply Hescape; [reflexivity | reflexivity | discriminate].
Defined.

(** C3 as stated fails on an unknown code: the input 7 on the
    enumeration 0: "single", 1: "married", whose fallback is 0, is
    refused with an error instead of being replaced by 0. *)
Lemma enum_unknown_code_is_refused :
  enum_default examples.marital_status examples.marital = Ok (PyInt 0)
  ∧ (validate ascii_text.int_literal ascii_text.int_of_float ascii_text.slugify
       examples.marital_status (PyInt 7)).1
    = Ok (PyInt 7, Some conv.MustBelongTo)
  ∧ (validate ascii_text.int_literal ascii_text.int_of_float ascii_text.slugify
       examples.marital_status (PyInt 7)).1 ≠ Ok (PyInt 0, None).
Proof. repeat split; [vm_compute; reflexivity..|vm_compute; discriminate]. Qed.

(** *** The label index is built once *)
Section index_cache.
Variable int_literal : string → option Z.
Variable int_of_float : string → result Z.
Variable slugify : string → string.

Local Abbreviation access := (EnumCol_json_to_python int_literal int_of_float slugify).

(** An access changes nothing but the stored index. *)
Lemma access_index (self : Column) :
  index_by_slug (access self).2
  = match enum self, index_by_slug self with
    | Some e, None => Some (build_index_by_slug slugify e)
    | _, stored => stored
    end.
Proof.
  unfold EnumCol_json_to_python.
  destruct (enum self) as [e|]; [|done].
  destruct (index_by_slug self) as [i|] eqn:Hi;
    destruct (enum_default self e); simpl; done.
Qed.

Lemma access_enum (self : Column) : enum (access self).2 = enum self.
Proof.
  unfold EnumCol_json_to_python.
  destruct (enum self) as [e|] eqn:He; [|done].
  destruct (index_by_slug self) as [i|];
    destruct (enum_default self e); simpl; done.
Qed.

Lemma access_default (self : Column) : _default (access self).2 = _default self.
Proof.
  unfold EnumCol_json_to_python.
  destruct (enum self) as [e|] eqn:He; [|done].
  destruct (index_by_slug self) as [i|];
    destruct (enum_default self e); simpl; done.
Qed.

(** With an index in store, an access leaves the descriptor as it is. *)
Lemma access_stored (self : Column) :
  builds_index self = false → (access self).2 = self.
Proof.
  unfold builds_index, EnumCol_json_to_python.
  destruct (enum self) as [e|]; [|done].
  destruct (index_by_slug self) as [i|]; [|done].
  intros _. destruct (enum_default self e); done.
Qed.

Lemma access_builds_once (self : Column) : builds_index (access self).2 = false.
Proof.
  unfold builds_index. rewrite access_enum, access_index.
  destruct (enum self), (index_by_slug self); done.
Qed.

(** The converter does not depend on whether the index was just built
    or taken from the store. *)
Lemma access_converter (self : Column) :
  (access (access self).2).1 = (access self).1.
Proof.
  destruct (builds_index self) eqn:Hb; [|by rewrite access_stored].
  unfold builds_index in Hb.
  destruct (enum self) as [e|] eqn:He; [|done].
  destruct (index_by_slug self) as [i|] eqn:Hi; [done|].
  pose proof (access_index self) as Hidx. rewrite He, Hi in Hidx.
  pose proof (access_enum self) as Hen. rewrite He in Hen.
  pose proof (access_default self) as Hdf.
  unfold EnumCol_json_to_python at 1. rewrite Hen, Hidx.
  unfold enum_default. rewrite Hdf.
  unfold EnumCol_json_to_python. rewrite He, Hi. unfold enum_default.
  destruct (negb (is_none (_default self)) && py_in_codes (_default self) (_vars e));
    [done|].
  destruct (min_key (_vars e)); done.
Qed.

Lemma use_repeatedly_S (n : nat) (self : Column) :
  use_repeatedly int_literal int_of_float slugify (S n) self
  = use_repeatedly int_literal int_of_float slugify n (access self).2.
Proof. reflexivity. Qed.

Lemma use_repeatedly_stored (n : nat) (self : Column) :
  builds_index self = false → use_repeatedly int_literal int_of_float slugify n self = self.
Proof.
  intros Hb. induction n as [|n IH]; [done|].
  rewrite use_repeatedly_S, access_stored; done.
Qed.

Lemma build_count_stored (n : nat) (self : Column) :
  builds_index self = false → build_count int_literal int_of_float slugify n self = O.
Proof.
  intros Hb. induction n as [|n IH]; [done|].
  simpl. rewrite Hb, access_stored; done.
Qed.

End index_cache.

(** C9.  A new descriptor has no label index.  Over any number of
    uses of the validation pipeline the index is built at most once;
    after the first use the descriptor holds the index (the one it held
    before, or the one built from the labels on that use) and no later
    use changes the descriptor; the converter obtained on any later use
    is the one obtained on the first. *)
Theorem index_by_slug_built_once (int_literal : string → option Z)
    (int_of_float : string → result Z) (slugify : string → string) (self : Column) (n : nat) :
  (∀ c kw, index_by_slug (__init__ c kw) = None)
  ∧ (build_count int_literal int_of_float slugify n self ≤ 1)%nat
  ∧ index_by_slug (use_repeatedly int_literal int_of_float slugify (S n) self)
    = match enum self, index_by_slug self with
      | Some e, None => Some (build_index_by_slug slugify e)
      | _, stored => stored
      end
  ∧ use_repeatedly int_literal int_of_float slugify (S n) self
    = use_repeatedly int_literal int_of_float slugify 1 self
  ∧ (EnumCol_json_to_python int_literal int_of_float slugify
       (use_repeatedly int_literal int_of_float slugify n self)).1
    = (EnumCol_json_to_python int_literal int_of_float slugify self).1.
Proof.
  pose proof (access_builds_once int_literal int_of_float slugify self) as Hb.
  assert (Hfix : ∀ m, use_repeatedly int_literal int_of_float slugify (S m) self
                      = (EnumCol_json_to_python int_literal int_of_float slugify self).2).
  { intros m. rewrite use_repeatedly_S. by apply use_repeatedly_stored. }
  split; [done|]. split; [|split; [|split]].
  - destruct n as [|n]; simpl; [lia|].
    rewrite build_count_stored by done. destruct (builds_index self); lia.
  - rewrite Hfix. apply access_index.
  - by rewrite !Hfix.
  - destruct n as [|n]; [done|]. rewrite Hfix. apply access_converter.
Qed.

(** *** Serialization *)

(** With a [freq] attribute in place, [Column.to_json] returns a
    record that starts with the type tag. *)
Lemma Column_to_json_defined (self : Column) (json_type : string) (f : pyvalue) :
  class_json_type (cls self) = Some json_type → freq self = Some f →
  ∃ rest, Column_to_json self = Ok (("@type", JValue (PyStr json_type)) :: rest).
Proof.
  intros Ht Hf. unfold Column_to_json. rewrite Ht, Hf.
  unfold set_unless_none, setitem.
  repeat match goal with
         | |- context [if ?b then _ else _] => destruct b
         end; simpl; eauto.
Qed.

(** C8, where the code departs from it.  On every descriptor that the
    constructors of [columns.py] build, [to_json] raises
    [AttributeError]: the base class has no [json_type], and on every
    other class the read of [self.freq] fails, no class defining that
    attribute and [__init__] never setting it; so it is for
    [IntCol(label = 'Age')]. *)
Theorem to_json_raises_on_constructed (c : column_class) (kw : init_kwargs) :
  to_json (__init__ c kw)
  = Raise (AttributeError match c with
                          | class_Column => "json_type"
                          | _ => "freq"
                          end)
  ∧ freq (__init__ c kw) = None
  ∧ to_json examples.age_column = Raise (AttributeError "freq").
Proof. destruct c; repeat split. Qed.

End columns_spec.

(** ** The simulation front end *)
Module simulations_spec.
Import simulations.


Section front_end.
Context {V L : Type}.
Implicit Types (w : world V L) (entity_compute : entity_method V L).


Lemma compute_unknown entity_compute column_name requested_columns_name w owner :
  entity_by_column_name (sim w) = Some owner → owner !! column_name = None →
  (∀ requested, requested_columns_name = Some requested → column_name ∉ requested) →
  compute entity_compute column_name requested_columns_name w
  = (Raise (KeyError column_name), w).
Proof.
  intros Howner Hnone Hfree. unfold compute.
  destruct requested_columns_name as [requested|].
  - rewrite decide_False by (by apply Hfree). by rewrite Howner, Hnone.
  - by rewrite Howner, Hnone.
Qed.

End front_end.



(** C4.  A call of [compute] for a column that is not being
    resolved and that the owner mapping does not know fails with the
    [KeyError] of the mapping, for every behaviour of the entities; the
    simulation is left as it was, so that every later request is
    answered as it would have been before. *)
Theorem compute_unknown_variable {V L : Type} (entity_compute : entity_method V L)
    (column_name : string) (requested_columns_name : option (gset string))
    (w : world V L) (owner : gmap string entity_ref) :
  entity_by_column_name (sim w) = Some owner → owner !! column_name = None →
  (∀ requested, requested_columns_name = Some requested → column_name ∉ requested) →
  compute entity_compute column_name requested_columns_name w
  = (Raise (KeyError column_name), w)
  ∧ ∀ next_name next_requested,
      compute entity_compute next_name next_requested
        (compute entity_compute column_name requested_columns_name w).2
      = compute entity_compute next_name next_requested w.
Proof.
  intros Howner Hnone Hfree.
  pose proof (compute_unknown entity_compute column_name requested_columns_name
                w owner Howner Hnone Hfree) as Hrun.
  split; [exact Hrun|]. intros next_name next_requested. by rewrite Hrun.
Qed.

Lemma compute_unknown_variable_witness :
  evaluate 5 "revenu" None examples.chain_simulation
  = (Raise (KeyError "revenu"), examples.chain_simulation).
Proof.
  apply (compute_unknown_variable (Entity_compute (evaluate 4)) "revenu" None
           examples.chain_simulation
           (dict_of_pairs (owner_pairs (heap examples.new_simulation) [("ind", 0%nat)]))).
  - reflexivity.
  - vm_compute. reflexivity.
  - intros requested Hrequested. discriminate Hrequested.
Defined.

(** C10.  For a column that an entity owns: when the entity has a
    holder for it, [get_holder_by_name] returns that holder with and
    without a default; when it has none, the call without default
    raises [KeyError] and the call with a default returns the
    default. *)
Theorem get_holder_by_name_spec {V L : Type} (w : world V L) (column_name : string)
    (owner : gmap string entity_ref) (r : entity_ref) (e : Entity V L) :
  entity_by_column_name (sim w) = Some owner → owner !! column_name = Some r →
  heap w !! r = Some e →
  match holder_by_name e !! column_name with
  | Some h =>
      get_holder_by_name w column_name UnboundLocalError = Ok (TheHolder h)
      ∧ ∀ v, get_holder_by_name w column_name (Default v) = Ok (TheHolder h)
  | None =>
      get_holder_by_name w column_name UnboundLocalError = Raise (KeyError column_name)
      ∧ ∀ v, get_holder_by_name w column_name (Default v) = Ok (TheDefault v)
  end.
Proof.
  intros Howner Hr He. unfold get_holder_by_name. rewrite Howner, Hr, He.
  destruct (holder_by_name e !! column_name); done.
Qed.

Lemma get_holder_by_name_spec_witness :
  get_holder_by_name examples.chain_simulation "age" UnboundLocalError
  = Raise (KeyError "age")
  ∧ ∀ v, get_holder_by_name examples.chain_simulation "age" (Default v)
         = Ok (TheDefault v).
Proof.
  apply (get_holder_by_name_spec examples.chain_simulation "age"
           (dict_of_pairs (owner_pairs (heap examples.new_simulation) [("ind", 0%nat)]))
           0%nat examples.individus).
  - reflexivity.
  - vm_compute. reflexivity.
  - vm_compute. reflexivity.
Defined.

(** *** The owner mapping *)

Lemma dict_of_pairs_from (pairs : list (string * entity_ref))
    (d : gmap string entity_ref) (c : string) (r : entity_ref) :
  foldl (λ (d : gmap string entity_ref) (p : string * entity_ref), <[p.1 := p.2]> d)
        d pairs !! c = Some r →
  (c, r) ∈ pairs ∨ d !! c = Some r.
Proof.
  revert d. induction pairs as [|[c' r'] pairs IH]; intros d; simpl; [by right|].
  intros Hlookup. destruct (IH _ Hlookup) as [Hin|Hd].
  - left. by apply list_elem_of_further.
  - destruct (decide (c' = c)) as [->|Hne].
    + rewrite lookup_insert_eq in Hd. injection Hd as ->. left. apply list_elem_of_here.
    + rewrite lookup_insert_ne in Hd by done. by right.
Qed.

Lemma dict_of_pairs_keeps (pairs : list (string * entity_ref))
    (d : gmap string entity_ref) (c : string) :
  is_Some (d !! c) →
  is_Some (foldl (λ (d : gmap string entity_ref) (p : string * entity_ref),
                    <[p.1 := p.2]> d) d pairs !! c).
Proof.
  revert d. induction pairs as [|[c' r'] pairs IH]; intros d Hd; simpl; [done|].
  apply IH. destruct (decide (c' = c)) as [->|Hne].
  - rewrite lookup_insert_eq. by eexists.
  - by rewrite lookup_insert_ne.
Qed.

Lemma dict_of_pairs_lookup (pairs : list (string * entity_ref)) (c : string)
    (r : entity_ref) :
  dict_of_pairs pairs !! c = Some r → (c, r) ∈ pairs.
Proof.
  intros Hlookup. destruct (dict_of_pairs_from pairs ∅ c r Hlookup) as [Hin|Hd]; [done|].
  by rewrite lookup_empty in Hd.
Qed.

Lemma dict_of_pairs_is_Some (pairs : list (string * entity_ref)) (c : string)
    (r : entity_ref) :
  (c, r) ∈ pairs → is_Some (dict_of_pairs pairs !! c).
Proof.
  unfold dict_of_pairs. generalize (∅ : gmap string entity_ref).
  induction pairs as [|[c' r'] pairs IH]; intros d Hin; simpl.
  - by apply elem_of_nil in Hin.
  - apply elem_of_cons in Hin as [[= <- <-]|Hin].
    + apply dict_of_pairs_keeps. rewrite lookup_insert_eq. by eexists.
    + by apply IH.
Qed.

Section owner.
Context {V L : Type}.

Lemma elem_of_owner_pairs (h : gmap entity_ref (Entity V L))
    (ents : list (string * entity_ref)) (c : string) (r : entity_ref) :
  (c, r) ∈ owner_pairs h ents ↔ r ∈ ents.*2 ∧ c ∈ column_names h r.
Proof.
  unfold owner_pairs. rewrite list_elem_of_bind. split.
  - intros [[k r'] [Hin Hitem]]. simpl in Hin.
    apply list_elem_of_fmap in Hin as [c' [[= -> ->] Hc]]. split; [|done].
    apply list_elem_of_fmap. by exists (k, r').
  - intros [Hr Hc]. apply list_elem_of_fmap in Hr as [[k r'] [-> Hitem]].
    exists (k, r'). split; [|done]. simpl.
    apply list_elem_of_fmap. by exists c.
Qed.

(** No step of the evaluation assigns an attribute of the simulation. *)
Lemma resolve_sim
    (sim_compute : string → option (gset string) → world V L → result (list V) * world V L) :
  (∀ n req w, sim (sim_compute n req w).2 = sim w) →
  ∀ inputs requested w, sim (resolve sim_compute inputs requested w).2 = sim w.
Proof.
  intros Hpres inputs requested. induction inputs as [|input rest IH]; intros w; [done|].
  simpl. specialize (Hpres input (Some requested) w).
  destruct (sim_compute input (Some requested) w) as [[array|exn] w1]; simpl in *; [|done].
  specialize (IH w1).
  destruct (resolve sim_compute rest requested w1) as [[arrays|exn] w2]; simpl in *;
    congruence.
Qed.

Lemma Entity_compute_sim
    (sim_compute : string → option (gset string) → world V L → result (list V) * world V L) :
  (∀ n req w, sim (sim_compute n req w).2 = sim w) →
  ∀ r n requested w, sim (Entity_compute sim_compute r n requested w).2 = sim w.
Proof.
  intros Hpres r n requested w. unfold Entity_compute.
  destruct (heap w !! r) as [e|]; [|done].
  destruct (match holder_by_name e !! n with
            | Some h => match state h with EMPTY => None | _ => Some (values h) end
            | None => None
            end); [done|].
  destruct (formula_by_name e !! n) as [formula|]; [|done].
  pose proof (resolve_sim sim_compute Hpres (required_inputs formula)
                (requested ∪ {[n]}) w) as Hres.
  destruct (resolve sim_compute (required_inputs formula) (requested ∪ {[n]}) w)
    as [[arrays|exn] w1]; done.
Qed.

Lemma compute_sim (entity_compute : entity_method V L) :
  (∀ r n requested w, sim (entity_compute r n requested w).2 = sim w) →
  ∀ n req w, sim (compute entity_compute n req w).2 = sim w.
Proof.
  intros Hpres n req w. unfold compute.
  destruct req as [requested|]; [destruct (decide (n ∈ requested))|]; try done;
    destruct (entity_by_column_name (sim w)) as [owner|]; try done;
    destruct (owner !! n); done.
Qed.

Lemma evaluate_sim (depth : nat) (n : string) (req : option (gset string))
    (w : world V L) :
  sim (evaluate depth n req w).2 = sim w.
Proof.
  revert n req w. induction depth as [|depth IH]; intros n req w; [done|].
  simpl. apply compute_sim. by apply Entity_compute_sim.
Qed.

End owner.

(** C7.  [set_entities] stores an owner mapping in which every entry
    sends a column name to one of the attached entities whose registry
    holds that name, and in which every name registered under an
    attached entity has an entry; a name registered under a single
    entity is owned by that entity.  [compute] itself never assigns
    the mapping, so it stays as it is when the entities do not reassign
    the attributes of the simulation, and it stays through the whole
    evaluation, however deep it goes. *)
Theorem set_entities_owner_mapping {V L : Type} (w : world V L)
    (ents : list (string * entity_ref)) :
  ∃ owner,
    entity_by_column_name (sim (set_entities w ents)) = Some owner
    ∧ (∀ c r, owner !! c = Some r → r ∈ ents.*2 ∧ c ∈ column_names (heap w) r)
    ∧ (∀ c r, r ∈ ents.*2 → c ∈ column_names (heap w) r → is_Some (owner !! c))
    ∧ (∀ c r, r ∈ ents.*2 → c ∈ column_names (heap w) r →
         (∀ r', r' ∈ ents.*2 → c ∈ column_names (heap w) r' → r' = r) →
         owner !! c = Some r)
    ∧ (∀ entity_compute : entity_method V L,
         (∀ r n requested w', sim (entity_compute r n requested w').2 = sim w') →
         ∀ column_name requested,
           entity_by_column_name
             (sim (compute entity_compute column_name requested
                     (set_entities w ents)).2)
           = Some owner)
    ∧ (∀ depth column_name requested,
         entity_by_column_name
           (sim (evaluate depth column_name requested (set_entities w ents)).2)
         = Some owner).
Proof.
  exists (dict_of_pairs (owner_pairs (heap w) ents)).
  assert (Hsound : ∀ c r, dict_of_pairs (owner_pairs (heap w) ents) !! c = Some r →
                          r ∈ ents.*2 ∧ c ∈ column_names (heap w) r).
  { intros c r Hlookup. apply elem_of_owner_pairs. by apply dict_of_pairs_lookup. }
  assert (Htotal : ∀ c r, r ∈ ents.*2 → c ∈ column_names (heap w) r →
                          is_Some (dict_of_pairs (owner_pairs (heap w) ents) !! c)).
  { intros c r Hr Hc. apply dict_of_pairs_is_Some with r.
    by apply elem_of_owner_pairs. }
  split; [done|]. split; [exact Hsound|]. split; [exact Htotal|].
  split; [|split].
  - intros c r Hr Hc Huniq. destruct (Htotal c r Hr Hc) as [r' Hr'].
    destruct (Hsound c r' Hr') as [Hin' Hc']. by rewrite Hr', (Huniq r' Hin' Hc').
  - intros entity_compute Hpres column_name requested. by rewrite compute_sim.
  - intros depth column_name requested. by rewrite evaluate_sim.
Qed.

End simulations_spec.

(** ** Reform mode *)
Module legacy_simulations_spec.
Import legacy_simulations.

Section reform.
Context {V L : Type}.
Implicit Types (h : gmap nat (object V L)) (t : TaxBenefitSystem V L).

Lemma call_lookup r method h t :
  h !! r = Some (OutputTable t) → call r method h = <[r := OutputTable (method t)]> h.
Proof. intros Hr. unfold call. by rewrite Hr. Qed.

Lemma alloc_fresh (o : object V L) h : h !! (alloc o h).1 = None.
Proof. unfold alloc. simpl. apply not_elem_of_dom, is_fresh. Qed.

(** A cached column satisfies the request for it: the formula is not
    run again. *)
Lemma calculate_one_cached (inputs cache : gmap string (list V)) (param default_param : L)
    (off : list string) (item : string * Prestation V L) :
  is_Some (cache !! item.1) →
  calculate_one inputs param default_param off cache item = cache.
Proof.
  intros [array Harray]. unfold calculate_one.
  case_bool_decide; [done|]. by rewrite Harray.
Qed.

(** A calculation reads the table it is called on and its input
    table, and writes that table only. *)
Lemma call_calculate_lookup r h t :
  h !! r = Some (OutputTable t) →
  call_calculate r h
  = ((calculate (input_columns h t) t).1,
     <[r := OutputTable (calculate (input_columns h t) t).2]> h).
Proof. intros Hr. unfold call_calculate. by rewrite Hr. Qed.

Lemma call_calculate_frame r r' h :
  r ≠ r' → (call_calculate r h).2 !! r' = h !! r'.
Proof.
  intros Hne. unfold call_calculate.
  destruct (h !! r) as [[d|t]|]; try done.
  simpl. by rewrite lookup_insert_ne.
Qed.

(** Two output tables at different addresses over one input table. *)
Section two_tables.
Variables (out out_default inputs : nat) (d : DataTable V).
Hypothesis apart : out ≠ out_default.
Hypothesis input_apart : inputs ≠ out ∧ inputs ≠ out_default.

Local Abbreviation view := (view out out_default inputs d).

Lemma view_call method h t t_default :
  view h t t_default → view (call out method h) (method t) t_default.
Proof using apart input_apart.
  intros (H1 & H2 & H3). rewrite (call_lookup _ _ _ _ H1). unfold view.
  destruct input_apart. rewrite lookup_insert_eq, !lookup_insert_ne by done. done.
Qed.

Lemma view_call_default method h t t_default :
  view h t t_default → view (call out_default method h) t (method t_default).
Proof using apart input_apart.
  intros (H1 & H2 & H3). rewrite (call_lookup _ _ _ _ H2). unfold view.
  destruct input_apart. rewrite lookup_insert_eq, !lookup_insert_ne by done. done.
Qed.

Lemma input_columns_view h t t_default u :
  view h t t_default → _inputs u = Some inputs → input_columns h u = table d.
Proof. intros (_ & _ & H3) Hu. unfold input_columns. rewrite Hu. simpl. by rewrite H3. Qed.

Lemma view_calculate h t t_default :
  view h t t_default → _inputs t = Some inputs →
  (call_calculate out h).1 = (calculate (table d) t).1
  ∧ view (call_calculate out h).2 (calculate (table d) t).2 t_default.
Proof using apart input_apart.
  intros Hview Ht. pose proof Hview as (H1 & H2 & H3).
  rewrite (call_calculate_lookup _ _ _ H1).
  rewrite (input_columns_view _ _ _ _ Hview Ht). split; [done|]. unfold view. simpl.
  destruct input_apart. rewrite lookup_insert_eq, !lookup_insert_ne by done. done.
Qed.

(** The calculation of the default table reads its own cache: the
    table computed before it does not appear in what it returns. *)
Lemma view_calculate_default h t t_default :
  view h t t_default → _inputs t_default = Some inputs →
  (call_calculate out_default h).1 = (calculate (table d) t_default).1
  ∧ view (call_calculate out_default h).2 t (calculate (table d) t_default).2.
Proof using apart input_apart.
  intros Hview Ht. pose proof Hview as (H1 & H2 & H3).
  rewrite (call_calculate_lookup _ _ _ H2).
  rewrite (input_columns_view _ _ _ _ Hview Ht). split; [done|]. unfold view. simpl.
  destruct input_apart. rewrite lookup_insert_eq, !lookup_insert_ne by done. done.
Qed.

End two_tables.

End reform.

(** C2.  In reform mode [_compute] leaves the simulation with two
    output tables at different addresses, both reading the one input
    table; the first keeps the legislation [P] and the second the
    default legislation [P_default].  The cache of each holds what a
    table with an empty cache computes from the inputs under its own
    legislation, and these caches are the data and the default data of
    the simulation: no column computed under one legislation answers a
    request under the other. *)
Theorem reform_tables_keep_apart {V L : Type} (s : Simulation V L)
    (h : gmap nat (object V L)) (d : DataTable V) (kw : option string) :
  reforme s = true → h !! input_table s = Some (InputTable d) →
  ∃ out out_default t t_default,
    output_table (_compute kw s h).1 = Some out
    ∧ output_table_default (_compute kw s h).1 = Some out_default
    ∧ out ≠ out_default
    ∧ (_compute kw s h).2 !! out = Some (OutputTable t)
    ∧ (_compute kw s h).2 !! out_default = Some (OutputTable t_default)
    ∧ (_compute kw s h).2 !! input_table s = Some (InputTable d)
    ∧ _inputs t = Some (input_table s) ∧ _inputs t_default = Some (input_table s)
    ∧ _param t = P s ∧ _param t_default = P_default s
    ∧ computed t = fresh_calculation s (table d) (P s)
    ∧ computed t_default = fresh_calculation s (table d) (P_default s)
    ∧ data (_compute kw s h).1 = Some (computed t)
    ∧ data_default (_compute kw s h).1 = Some (computed t_default).
Proof.
  intros Href Hin.
  unfold _compute, _preproc, alloc. rewrite Href.
  set (t1 := set_inputs (input_table s)
               (new_table (prestation_by_name s) (P s) (P_default s))).
  set (t2 := set_inputs (input_table s)
               (new_table (prestation_by_name s) (P_default s) (P_default s))).
  set (r1 := fresh (dom h)).
  set (h1 := <[r1 := OutputTable t1]> h).
  set (r2 := fresh (dom h1)).
  assert (Hr1 : h !! r1 = None) by apply not_elem_of_dom, is_fresh.
  assert (Hr2 : h1 !! r2 = None) by apply not_elem_of_dom, is_fresh.
  assert (Hne : r1 ≠ r2).
  { intros Heq. rewrite <- Heq in Hr2. unfold h1 in Hr2.
    rewrite lookup_insert_eq in Hr2. discriminate. }
  assert (Hi : input_table s ≠ r1 ∧ input_table s ≠ r2).
  { split; intros Heq.
    - rewrite Heq in Hin. congruence.
    - rewrite <- Heq in Hr2. unfold h1 in Hr2.
      rewrite lookup_insert_ne in Hr2 by (intros ->; congruence). congruence. }
  cbn [fst snd output_table output_table_default set_output_tables reforme
       disabled_prestations].
  rewrite Href.
  assert (Hview : view r1 r2 (input_table s) d (<[r2 := OutputTable t2]> h1) t1 t2).
  { destruct Hi. unfold view, h1.
    repeat split;
      repeat first [rewrite lookup_insert_eq | rewrite lookup_insert_ne by done];
      done. }
  apply (view_call r1 r2 (input_table s) d Hne Hi
           (disable (disabled_prestations s))) in Hview.
  apply (view_call_default r1 r2 (input_table s) d Hne Hi
           (disable (disabled_prestations s))) in Hview.
  apply (view_call r1 r2 (input_table s) d Hne Hi (set_decomp_file kw)) in Hview.
  apply (view_call_default r1 r2 (input_table s) d Hne Hi (set_decomp_file kw))
    in Hview.
  apply (view_calculate r1 r2 (input_table s) d Hne Hi) in Hview as [Hdata Hview];
    [|reflexivity].
  destruct (call_calculate r1 _) as [d0 h0]. simpl in Hdata, Hview. subst d0.
  apply (view_call_default r1 r2 (input_table s) d Hne Hi reset) in Hview.
  apply (view_call_default r1 r2 (input_table s) d Hne Hi
           (disable (disabled_prestations s))) in Hview.
  apply (view_calculate_default r1 r2 (input_table s) d Hne Hi) in Hview
    as [Hdefault Hview]; [|reflexivity].
  destruct (call_calculate r2 _) as [d1 h2]. simpl in Hdefault, Hview. subst d1.
  destruct Hview as (H1 & H2 & H3).
  eexists r1, r2, _, _. cbn [fst snd].
  split; [reflexivity|]. split; [reflexivity|]. split; [exact Hne|].
  split; [exact H1|]. split; [exact H2|]. split; [exact H3|].
  repeat split.
Qed.

Lemma reform_example_heap :
  examples.reform_heap !! legacy_simulations.input_table examples.reform_simulation
  = Some (InputTable examples.survey).
Proof. reflexivity. Qed.

(** The reform scenario: each table computes the tax at the rate of
    its own legislation. *)
Lemma reform_tables_keep_apart_witness :
  ∃ (out out_default : nat) (t t_default : TaxBenefitSystem Q examples.legislation),
    output_table (_compute None examples.reform_simulation examples.reform_heap).1
    = Some out
    ∧ output_table_default
        (_compute None examples.reform_simulation examples.reform_heap).1
      = Some out_default
    ∧ out ≠ out_default
    ∧ computed t !! "tax" = Some [100#1; 0#1; 50#1]
    ∧ computed t_default !! "tax" = Some [200#1; 0#1; 100#1]
    ∧ data (_compute None examples.reform_simulation examples.reform_heap).1
      = Some (computed t)
    ∧ data_default (_compute None examples.reform_simulation examples.reform_heap).1
      = Some (computed t_default).
Proof.
  destruct (reform_tables_keep_apart examples.reform_simulation examples.reform_heap
              examples.survey None eq_refl reform_example_heap)
    as (out & out_default & t & t_default & Ho & Hd & Hne & _ & _ & _ & _ & _ & _
        & _ & Ht & Htd & Hdata & Hdefault).
  exists out, out_default, t, t_default.
  split; [exact Ho|]. split; [exact Hd|]. split; [exact Hne|].
  split; [rewrite Ht; vm_compute; reflexivity|].
  split; [rewrite Htd; vm_compute; reflexivity|].
  split; [exact Hdata|exact Hdefault].
Defined.

End legacy_simulations_spec.

(** * Further properties *)

(** ** Validation pipelines on the other inputs *)
Module pipelines_spec.
Import columns.

(** X1.  On an input that is not an integer, the pipeline of an age
    column lets an absent value through as it is (no default is put in
    its place), accepts a boolean as it is, and refuses every other
    value, a numeric string included, for its type. *)
Theorem AgesCol_other_inputs (self : Column) :
  AgesCol_json_to_python self PyNone = Ok (PyNone, None)
  ∧ (∀ b, AgesCol_json_to_python self (PyBool b) = Ok (PyBool b, None))
  ∧ (∀ v, conv.isinstance v conv.int = false → v ≠ PyNone →
       AgesCol_json_to_python self v = Ok (v, Some conv.NotAnInstance)).
Proof.
  split; [reflexivity|]. split.
  - intros [|]; reflexivity.
  - intros v Hv Hnone. destruct v; first [done | discriminate Hv | reflexivity].
Qed.

Lemma AgesCol_other_inputs_witness :
  AgesCol_json_to_python examples.age_column (PyStr "12")
  = Ok (PyStr "12", Some conv.NotAnInstance).
Proof.
  apply (AgesCol_other_inputs examples.age_column); [reflexivity|discriminate].
Defined.

Section without_enumeration.
Variable int_literal : string → option Z.
Variable int_of_float : string → result Z.
Variable slugify : string → string.

(** X2.  A descriptor without enumeration is left as it is by the
    property, no label index being built, and its converter puts the
    default in the place of an absent value, takes every integer as it
    is, whatever its value, a boolean as 0 or 1, a string that is an
    integer literal as that integer and a string that is a float
    literal as the integer part of the float; it refuses a string that
    reads as no number, labels included, and every value of another
    type; a string on which [int(float(s))] raises another exception
    than [ValueError], as one that reads as an infinite float does,
    makes it raise that exception. *)
Theorem EnumCol_without_enumeration (self : Column) :
  enum self = None →
  ∃ converter,
    EnumCol_json_to_python int_literal int_of_float slugify self = (Ok converter, self)
    ∧ converter PyNone = Ok (_default self, None)
    ∧ (∀ z, converter (PyInt z) = Ok (PyInt z, None))
    ∧ (∀ b, converter (PyBool b) = Ok (PyInt (Z.b2z b), None))
    ∧ (∀ s z, int_literal s = Some z → converter (PyStr s) = Ok (PyInt z, None))
    ∧ (∀ s z, int_literal s = None → int_of_float s = Ok z →
         converter (PyStr s) = Ok (PyInt z, None))
    ∧ (∀ s, int_literal s = None → int_of_float s = Raise ValueError →
         converter (PyStr s) = Ok (PyStr s, Some conv.MustBeInteger))
    ∧ (∀ s exn, int_literal s = None → int_of_float s = Raise exn →
         exn ≠ ValueError → converter (PyStr s) = Raise exn)
    ∧ (∀ y m d, converter (PyDate y m d)
                = Ok (PyDate y m d, Some conv.NotAnInstance))
    ∧ converter PyOther = Ok (PyOther, Some conv.NotAnInstance).
Proof.
  intros He. unfold EnumCol_json_to_python. rewrite He.
  eexists. split; [reflexivity|]. split; [reflexivity|].
  split; [reflexivity|]. split; [intros [|]; reflexivity|].
  split; [|split; [|split; [|split; [|split; [reflexivity|reflexivity]]]]].
  - intros s z Hs. cbv [conv.pipe conv.test_isinstance conv.test existsb
      conv.isinstance orb conv.anything_to_int conv.default]. by rewrite Hs.
  - intros s z Hs Hf. cbv [conv.pipe conv.test_isinstance conv.test existsb
      conv.isinstance orb conv.anything_to_int conv.default]. by rewrite Hs, Hf.
  - intros s Hs Hf. cbv [conv.pipe conv.test_isinstance conv.test existsb
      conv.isinstance orb conv.anything_to_int conv.default]. by rewrite Hs, Hf.
  - intros s exn Hs Hf Hexn. cbv [conv.pipe conv.test_isinstance conv.test existsb
      conv.isinstance orb conv.anything_to_int conv.default]. rewrite Hs, Hf.
    by destruct exn.
Qed.

(** X3.  A descriptor whose enumeration has no code cannot validate
    anything: every access to the property raises the [ValueError] of
    the minimum of an empty sequence, whatever the default; the label
    index is stored all the same. *)
Theorem EnumCol_empty_enumeration (self : Column) (e : Enum) :
  enum self = Some e → _vars e = ∅ →
  (∀ value, (validate int_literal int_of_float slugify self value).1 = Raise ValueError)
  ∧ index_by_slug (EnumCol_json_to_python int_literal int_of_float slugify self).2
    = Some (index_in_use slugify self e).
Proof.
  intros He Hempty.
  assert (Hd : enum_default self e = Raise ValueError).
  { unfold enum_default, py_in_codes, min_key. rewrite Hempty.
    rewrite map_to_list_empty. simpl.
    destruct (int_value (_default self)); simpl.
    - rewrite lookup_empty, bool_decide_eq_false_2 by (by intros [? ?]).
      by rewrite andb_false_r.
    - by rewrite andb_false_r. }
  unfold validate, EnumCol_json_to_python, index_in_use. rewrite He, Hd.
  destruct (index_by_slug self) eqn:Hi; simpl; split; done.
Qed.

End without_enumeration.

Lemma EnumCol_without_enumeration_witness :
  (validate ascii_text.int_literal ascii_text.int_of_float ascii_text.slugify
     more_examples.bare_enum_column (PyInt 7)).1 = Ok (PyInt 7, None)
  ∧ (validate ascii_text.int_literal ascii_text.int_of_float ascii_text.slugify
       more_examples.bare_enum_column (PyStr "1.5")).1 = Ok (PyInt 1, None)
  ∧ (validate ascii_text.int_literal ascii_text.int_of_float ascii_text.slugify
       more_examples.bare_enum_column (PyStr "inf")).1 = Raise OverflowError
  ∧ (validate ascii_text.int_literal ascii_text.int_of_float ascii_text.slugify
       more_examples.bare_enum_column (PyStr "married")).1
    = Ok (PyStr "married", Some conv.MustBeInteger).
Proof.
  destruct (EnumCol_without_enumeration ascii_text.int_literal
              ascii_text.int_of_float ascii_text.slugify
              more_examples.bare_enum_column eq_refl)
    as (converter & Haccess & _ & Hint & _ & _ & Hfloat & Hlabel & Hescape & _).
  unfold validate. rewrite Haccess. simpl. split; [apply Hint|].
  split; [apply Hfloat; reflexivity|].
  split; [apply Hescape; [reflexivity|reflexivity|discriminate]|].
  apply Hlabel; reflexivity.
Defined.

Lemma EnumCol_empty_enumeration_witness :
  (validate ascii_text.int_literal ascii_text.int_of_float ascii_text.slugify
     more_examples.empty_enum_column (PyInt 0)).1 = Raise ValueError.
Proof.
  apply (EnumCol_empty_enumeration
           ascii_text.int_literal ascii_text.int_of_float ascii_text.slugify
           more_examples.empty_enum_column more_examples.empty_enum);
    reflexivity.
Defined.

(** ** The label index *)

#[local] Instance item_le_transitive : Transitive item_le.
Proof. intros a b c. unfold item_le. lia. Qed.

#[local] Instance item_le_total : Total item_le.
Proof. intros a b. unfold item_le. lia. Qed.

Lemma elem_of_sorted_items (d : gmap Z string) (c : Z) (name : string) :
  (c, name) ∈ sorted_items d ↔ d !! c = Some name.
Proof.
  unfold sorted_items. rewrite merge_sort_Permutation. apply elem_of_map_to_list.
Qed.

Lemma sorted_items_sorted (d : gmap Z string) : StronglySorted item_le (sorted_items d).
Proof. apply StronglySorted_merge_sort; apply _. Qed.

Section index.
Variable slugify : string → string.

Local Abbreviation index_of :=
  (foldl (λ (d : gmap string Z) (item : Z * string), <[slugify item.2 := item.1]> d) ∅).

Lemma index_of_snoc (l : list (Z * string)) (x : Z * string) :
  index_of (l ++ [x]) = <[slugify x.2 := x.1]> (index_of l).
Proof. by rewrite foldl_app. Qed.

Lemma index_of_sound (l : list (Z * string)) (g : string) (c : Z) :
  index_of l !! g = Some c → ∃ name, (c, name) ∈ l ∧ slugify name = g.
Proof.
  induction l as [|[c' name'] l IH] using rev_ind;
    [simpl; by rewrite lookup_empty|].
  rewrite index_of_snoc. simpl. intros Hlookup.
  destruct (decide (slugify name' = g)) as [Hg|Hg].
  - rewrite Hg, lookup_insert_eq in Hlookup. injection Hlookup as <-.
    exists name'. split; [|done]. apply elem_of_app. right. apply list_elem_of_here.
  - rewrite lookup_insert_ne in Hlookup by done.
    destruct (IH Hlookup) as (name & Hin & Hname).
    exists name. split; [|done]. apply elem_of_app. by left.
Qed.

Lemma index_of_greatest (l : list (Z * string)) (g : string) (c : Z) :
  StronglySorted item_le l → index_of l !! g = Some c →
  ∀ c' name', (c', name') ∈ l → slugify name' = g → c' ≤ c.
Proof.
  induction l as [|[cx namex] l IH] using rev_ind;
    [simpl; by rewrite lookup_empty|].
  intros Hsorted. rewrite index_of_snoc. simpl. intros Hlookup c' name' Hin Hg.
  apply elem_of_app in Hin as [Hin|Hin].
  - destruct (decide (slugify namex = g)) as [Hx|Hx].
    + rewrite Hx, lookup_insert_eq in Hlookup. injection Hlookup as <-.
      apply (StronglySorted_app_1_elem_of _ _ _ (c', name') (cx, namex) Hsorted Hin).
      apply list_elem_of_here.
    + rewrite lookup_insert_ne in Hlookup by done.
      apply (IH (StronglySorted_app_1_l _ _ _ Hsorted) Hlookup c' name' Hin Hg).
  - apply list_elem_of_singleton in Hin. injection Hin as -> ->.
    rewrite Hg, lookup_insert_eq in Hlookup. injection Hlookup as <-. lia.
Qed.

Lemma index_of_complete (l : list (Z * string)) (c : Z) (name : string) :
  (c, name) ∈ l → is_Some (index_of l !! slugify name).
Proof.
  induction l as [|[cx namex] l IH] using rev_ind; [by intros ?%elem_of_nil|].
  rewrite index_of_snoc. simpl. intros Hin.
  destruct (decide (slugify namex = slugify name)) as [Hx|Hx].
  - rewrite Hx, lookup_insert_eq. by eexists.
  - rewrite lookup_insert_ne by done. apply IH.
    apply elem_of_app in Hin as [Hin|Hin]; [done|].
    apply list_elem_of_singleton in Hin. injection Hin as -> ->. done.
Qed.

Lemma build_index_lookup (e : Enum) (g : string) (c : Z) :
  build_index_by_slug slugify e !! g = Some c
  ↔ (∃ name, _vars e !! c = Some name ∧ slugify name = g)
    ∧ (∀ c' name', _vars e !! c' = Some name' → slugify name' = g → c' ≤ c).
Proof.
  unfold build_index_by_slug. split.
  - intros Hlookup. split.
    + destruct (index_of_sound _ _ _ Hlookup) as (name & Hin & Hname).
      exists name. split; [|done]. by apply elem_of_sorted_items.
    + intros c' name' Hc' Hname'.
      apply (index_of_greatest _ _ _ (sorted_items_sorted _) Hlookup c' name');
        [|done].
      by apply elem_of_sorted_items.
  - intros [(name & Hc & Hname) Hgreatest].
    apply elem_of_sorted_items in Hc as Hin.
    destruct (index_of_complete _ _ _ Hin) as [c0 Hc0]. rewrite Hname in Hc0.
    destruct (index_of_sound _ _ _ Hc0) as (name0 & Hin0 & Hname0).
    apply elem_of_sorted_items in Hin0.
    pose proof (Hgreatest c0 name0 Hin0 Hname0) as Hle.
    pose proof (index_of_greatest _ _ _ (sorted_items_sorted _) Hc0 c name Hin Hname)
      as Hge.
    rewrite Hc0. f_equal. lia.
Qed.

(** X4.  The label index built from an enumeration sends a slug to a
    code exactly when that code is the greatest of the codes whose
    label has this slug: every entry is the slug of a label with its
    code, every label is found through its slug, and of two labels of
    one slug the one of greater code is kept. *)
Theorem build_index_by_slug_greatest_code (e : Enum) (g : string) (c : Z) :
  build_index_by_slug slugify e !! g = Some c
  ↔ (∃ name, _vars e !! c = Some name ∧ slugify name = g)
    ∧ (∀ c' name', _vars e !! c' = Some name' → slugify name' = g → c' ≤ c).
Proof. apply build_index_lookup. Qed.

End index.


Section fresh_descriptor.
Variable int_literal : string → option Z.
Variable int_of_float : string → result Z.
Variable slugify : string → string.

Lemma vars_nonempty (e : Enum) (c : Z) : is_Some (_vars e !! c) → _vars e ≠ ∅.
Proof. intros [name Hc] Hempty. by rewrite Hempty, lookup_empty in Hc. Qed.

(** The converter of a descriptor that holds no index yet. *)
Lemma fresh_converter (self : Column) (e : Enum) :
  enum self = Some e → index_by_slug self = None → _vars e ≠ ∅ →
  ∃ fallback,
    py_in_codes fallback (_vars e) = true
    ∧ (EnumCol_json_to_python int_literal int_of_float slugify self).1
      = Ok (enum_pipeline int_literal int_of_float slugify e
              (build_index_by_slug slugify e) fallback).
Proof.
  intros He Hi Hne.
  destruct (columns_spec.enum_default_spec self e Hne) as (fallback & Hd & Hf).
  destruct (columns_spec.json_to_python_enum
              int_literal int_of_float slugify self e fallback He Hd) as [Hconv _].
  unfold index_in_use in Hconv. rewrite Hi in Hconv. simpl in Hconv.
  exists fallback. split; [|done].
  destruct Hf as [(_ & Hin & ->)|[_ (k & -> & Hk & _)]]; [done|].
  unfold py_in_codes. simpl. by rewrite bool_decide_eq_true_2.
Qed.

Lemma run_bool (e : Enum) (index : gmap string Z) (fallback : pyvalue) (b : bool) :
  enum_pipeline int_literal int_of_float slugify e index fallback (PyBool b)
  = enum_pipeline int_literal int_of_float slugify e index fallback (PyInt (Z.b2z b)).
Proof.
  rewrite columns_spec.run_int.
  cbv [enum_pipeline conv.pipe conv.condition conv.test_isinstance conv.test
       conv.anything_to_int conv.test_in conv.default py_in_codes int_value
       existsb conv.isinstance orb].
  by case_bool_decide.
Qed.

(** X5.  On a descriptor that holds no index yet, every spelling of a
    label of the enumeration, that is every string of the same
    non-empty slug that reads as no number (both [int(s)] and
    [int(float(s))] raise [ValueError]), is coerced to the code of the
    label, as long as no label of a greater code has that slug. *)
Theorem enum_label_round_trip (self : Column) (e : Enum) (c : Z)
    (name s : string) :
  enum self = Some e → index_by_slug self = None →
  _vars e !! c = Some name →
  (∀ c' name', _vars e !! c' = Some name' → slugify name' = slugify name → c' ≤ c) →
  int_literal s = None → int_of_float s = Raise ValueError →
  slugify s = slugify name → slugify s ≠ "" →
  (validate int_literal int_of_float slugify self (PyStr s)).1 = Ok (PyInt c, None).
Proof.
  intros He Hi Hc Hgreatest Hlit Hfloat Hslug Hblank.
  destruct (fresh_converter self e He Hi (vars_nonempty e c (mk_is_Some _ _ Hc)))
    as (fallback & _ & Hconv).
  unfold validate.
  destruct (EnumCol_json_to_python int_literal int_of_float slugify self)
    as [[converter|exn] self'];
    simpl in Hconv; [|discriminate].
  injection Hconv as ->. simpl.
  rewrite columns_spec.run_label by done.
  assert (Hindex : build_index_by_slug slugify e !! slugify s = Some c).
  { apply build_index_lookup. rewrite Hslug. split; [by exists name|done]. }
  by rewrite Hindex.
Qed.

(** X6.  On a descriptor with a non-empty enumeration that holds no
    index yet, whatever the input, a validation that succeeds returns a
    code of the enumeration: the code given, the code of a label, or
    the fallback. *)
Theorem enum_success_is_a_code (self : Column) (e : Enum) :
  enum self = Some e → index_by_slug self = None → _vars e ≠ ∅ →
  ∃ converter,
    (EnumCol_json_to_python int_literal int_of_float slugify self).1 = Ok converter
    ∧ ∀ value code, converter value = Ok (code, None) →
        py_in_codes code (_vars e) = true.
Proof.
  intros He Hi Hne.
  destruct (fresh_converter self e He Hi Hne) as (fallback & Hfallback & Hconv).
  eexists. split; [exact Hconv|].
  assert (Hint : ∀ z code,
            enum_pipeline int_literal int_of_float slugify e
              (build_index_by_slug slugify e) fallback (PyInt z) = Ok (code, None) →
            py_in_codes code (_vars e) = true).
  { intros z code. rewrite columns_spec.run_int. case_bool_decide; [|done].
    intros [= <-]. unfold py_in_codes. simpl. by rewrite bool_decide_eq_true_2. }
  intros value code Hrun. destruct value as [|b|z|s|y m d|].
  - rewrite columns_spec.run_none in Hrun. by injection Hrun as <-.
  - rewrite run_bool in Hrun. by apply Hint in Hrun.
  - by apply Hint in Hrun.
  - destruct (int_literal s) as [z|] eqn:Hlit.
    + rewrite (columns_spec.run_literal _ _ _ _ _ _ _ _ Hlit) in Hrun.
      by apply Hint in Hrun.
    + destruct (int_of_float s) as [z|exn] eqn:Hfloat.
      * rewrite (columns_spec.run_float _ _ _ _ _ _ _ _ Hlit Hfloat) in Hrun.
        by apply Hint in Hrun.
      * assert (exn = ValueError ∨ exn ≠ ValueError) as [->|Hexn]
          by (destruct exn; first [by left | by right]).
        2: by rewrite (columns_spec.run_escape _ _ _ _ _ _ _ _ Hlit Hfloat Hexn)
             in Hrun.
        destruct (decide (slugify s = "")) as [Hblank|Hblank].
        -- rewrite columns_spec.run_blank in Hrun by done. by injection Hrun as <-.
        -- rewrite columns_spec.run_label in Hrun by done.
           destruct (build_index_by_slug slugify e !! slugify s) as [c|] eqn:Hc;
             [|done].
           injection Hrun as <-.
           apply build_index_lookup in Hc as [(name & Hname & _) _].
           unfold py_in_codes. simpl. rewrite bool_decide_eq_true_2; [done|].
           by exists name.
  - done.
  - done.
Qed.

End fresh_descriptor.

Lemma doubled_greatest (c' : Z) (name' : string) :
  _vars more_examples.doubled !! c' = Some name' →
  ascii_text.slugify name' = ascii_text.slugify "single" → c' ≤ 1.
Proof.
  intros Hc' Hslug. unfold more_examples.doubled in Hc'. simpl in Hc'.
  destruct (decide (c' = 2)) as [->|H2].
  - rewrite lookup_insert_eq in Hc'. injection Hc' as <-.
    vm_compute in Hslug. discriminate.
  - rewrite lookup_insert_ne in Hc' by done.
    destruct (decide (c' = 1)) as [->|H1]; [lia|].
    rewrite lookup_insert_ne in Hc' by done.
    destruct (decide (c' = 0)) as [->|H0]; [lia|].
    rewrite lookup_insert_ne, lookup_empty in Hc' by done. discriminate.
Qed.

Lemma enum_label_round_trip_witness :
  (validate ascii_text.int_literal ascii_text.int_of_float ascii_text.slugify
     (__init__ class_EnumCol (examples.kwargs_with_enum more_examples.doubled))
     (PyStr " SINGLE ")).1 = Ok (PyInt 1, None).
Proof.
  apply (enum_label_round_trip ascii_text.int_literal ascii_text.int_of_float ascii_text.slugify
           (__init__ class_EnumCol (examples.kwargs_with_enum more_examples.doubled))
           more_examples.doubled 1 "single" " SINGLE ").
  - reflexivity.
  - reflexivity.
  - vm_compute. reflexivity.
  - exact doubled_greatest.
  - reflexivity.
  - reflexivity.
  - reflexivity.
  - discriminate.
Defined.

Lemma enum_success_is_a_code_witness :
  ∃ converter,
    (EnumCol_json_to_python ascii_text.int_literal ascii_text.int_of_float ascii_text.slugify
       examples.marital_status).1 = Ok converter
    ∧ ∀ value code, converter value = Ok (code, None) →
        py_in_codes code (_vars examples.marital) = true.
Proof.
  apply (enum_success_is_a_code ascii_text.int_literal ascii_text.int_of_float ascii_text.slugify
           examples.marital_status examples.marital).
  - reflexivity.
  - reflexivity.
  - exact columns_spec.marital_nonempty.
Defined.

End pipelines_spec.

(** ** Serialization of a descriptor that has a [freq] attribute *)
Module serialization_spec.
Import columns records.

Lemma item_nil (key : string) : item [] key = None.
Proof. unfold item. simpl. apply lookup_empty. Qed.

Lemma item_setitem (d : list (string * json)) (k : string) (v : json) (key : string) :
  item (setitem d k v) key
  = match item d key with
    | Some x => Some x
    | None => if decide (k = key) then Some v else None
    end.
Proof.
  unfold item, setitem. rewrite list_to_map_app, lookup_union. simpl.
  rewrite lookup_insert, lookup_empty.
  destruct (list_to_map d !! key); case_decide; done.
Qed.

Lemma item_set_unless_none (d : list (string * json)) (k : string) (v : pyvalue)
    (key : string) :
  item (set_unless_none k v d) key
  = match item d key with
    | Some x => Some x
    | None => if decide (k = key) then entry v else None
    end.
Proof.
  unfold set_unless_none, entry. destruct (is_none v).
  - destruct (item d key); [done|]. by case_decide.
  - apply item_setitem.
Qed.

Lemma is_none_date_to_json (v : pyvalue) : is_none (date_to_json v) = is_none v.
Proof. by destruct v. Qed.

Ltac in_keys := repeat first [apply list_elem_of_here | apply list_elem_of_further].

Ltac decide_keys :=
  repeat match goal with
         | |- context [decide (?a = ?b)] =>
             first [ rewrite (decide_True (P := a = b)) by reflexivity
                   | rewrite (decide_False (P := a = b)) by discriminate ]
         end.

Ltac read_items :=
  repeat first [rewrite item_set_unless_none | rewrite item_setitem | rewrite item_nil];
  decide_keys;
  repeat match goal with
         | |- context [entry ?v] => destruct (entry v)
         end;
  try reflexivity.

(** The record of [Column.to_json], read key by key. *)
Lemma Column_to_json_items (self : Column) (json_type : string) (f : pyvalue) :
  class_json_type (cls self) = Some json_type → freq self = Some f →
  ∃ self_json,
    Column_to_json self = Ok self_json
    ∧ item self_json "@type" = Some (JValue (PyStr json_type))
    ∧ item self_json "cerfa_field" = entry (cerfa_field self)
    ∧ item self_json "default" = entry (_default self)
    ∧ item self_json "end" = entry (date_to_json (end_ self))
    ∧ item self_json "entity" = entry (entity self)
    ∧ item self_json "freq"
      = (if py_eq f (PyStr "year") then None else Some (JValue f))
    ∧ item self_json "label" = entry (label self)
    ∧ item self_json "name" = entry (name self)
    ∧ item self_json "start" = entry (date_to_json (start self))
    ∧ item self_json "val_type" = entry (val_type self)
    ∧ item self_json "labels" = None
    ∧ ∀ key, is_Some (item self_json key) →
        key ∈ ["@type"; "cerfa_field"; "default"; "end"; "entity"; "freq";
               "label"; "name"; "start"; "val_type"].
Proof.
  intros Ht Hf. unfold Column_to_json. rewrite Ht, Hf.
  change [("@type", JValue (PyStr json_type))]
    with (setitem [] "@type" (JValue (PyStr json_type))).
  eexists. split; [reflexivity|].
  destruct (py_eq f (PyStr "year")); simpl;
    (repeat split; [read_items..|]);
    intros key [x Hx]; revert Hx;
    repeat first [rewrite item_set_unless_none | rewrite item_setitem | rewrite item_nil];
    repeat match goal with
           | |- context [decide (?k = key)] =>
               destruct (decide (k = key)) as [<-|?];
               [intros _; in_keys|]
           end; done.
Qed.

(** X7.  On a descriptor of a class with a type tag that has a [freq]
    attribute, [to_json] returns a record that is a projection of the
    descriptor: the type tag under "@type"; each of the attributes
    cerfa_field, default, end, entity, label, name, start and val_type
    under its name exactly when it is not [None], the two dates in ISO
    format; the frequency exactly when it differs from 'year'; the
    code to label table under "labels" exactly for an enumerated column
    with an enumeration; and no other key. *)
Theorem to_json_projection (self : Column) (json_type : string) (f : pyvalue) :
  class_json_type (cls self) = Some json_type → freq self = Some f →
  ∃ self_json,
    to_json self = Ok self_json
    ∧ item self_json "@type" = Some (JValue (PyStr json_type))
    ∧ item self_json "cerfa_field" = entry (cerfa_field self)
    ∧ item self_json "default" = entry (_default self)
    ∧ item self_json "end" = entry (date_to_json (end_ self))
    ∧ item self_json "entity" = entry (entity self)
    ∧ item self_json "freq"
      = (if py_eq f (PyStr "year") then None else Some (JValue f))
    ∧ item self_json "label" = entry (label self)
    ∧ item self_json "name" = entry (name self)
    ∧ item self_json "start" = entry (date_to_json (start self))
    ∧ item self_json "val_type" = entry (val_type self)
    ∧ item self_json "labels"
      = match cls self, enum self with
        | class_EnumCol, Some e => Some (JLabels (enum_labels e))
        | _, _ => None
        end
    ∧ ∀ key, is_Some (item self_json key) →
        key ∈ ["@type"; "cerfa_field"; "default"; "end"; "entity"; "freq";
               "label"; "name"; "start"; "val_type"; "labels"].
Proof.
  intros Ht Hf.
  destruct (Column_to_json_items self json_type f Ht Hf)
    as (j & Hj & H1 & H2 & H3 & H4 & H5 & H6 & H7 & H8 & H9 & H10 & H11 & Hkeys).
  assert (Hplain : ∀ key, is_Some (item j key) →
            key ∈ ["@type"; "cerfa_field"; "default"; "end"; "entity"; "freq";
                   "label"; "name"; "start"; "val_type"; "labels"]).
  { intros key Hkey. specialize (Hkeys key Hkey).
    change (key ∈ ["@type"; "cerfa_field"; "default"; "end"; "entity"; "freq";
                   "label"; "name"; "start"; "val_type"] ++ ["labels"]).
    apply elem_of_app. by left. }
  assert (Hsame : ∃ self_json,
            Ok j = Ok self_json
            ∧ item self_json "@type" = Some (JValue (PyStr json_type))
            ∧ item self_json "cerfa_field" = entry (cerfa_field self)
            ∧ item self_json "default" = entry (_default self)
            ∧ item self_json "end" = entry (date_to_json (end_ self))
            ∧ item self_json "entity" = entry (entity self)
            ∧ item self_json "freq"
              = (if py_eq f (PyStr "year") then None else Some (JValue f))
            ∧ item self_json "label" = entry (label self)
            ∧ item self_json "name" = entry (name self)
            ∧ item self_json "start" = entry (date_to_json (start self))
            ∧ item self_json "val_type" = entry (val_type self)
            ∧ item self_json "labels" = None
            ∧ ∀ key, is_Some (item self_json key) →
                key ∈ ["@type"; "cerfa_field"; "default"; "end"; "entity"; "freq";
                       "label"; "name"; "start"; "val_type"; "labels"]).
  { exists j. repeat split; done. }
  unfold to_json, EnumCol_to_json. rewrite Hj.
  destruct (cls self); try exact Hsame.
  destruct (enum self) as [e|]; [|exact Hsame].
  eexists. split; [reflexivity|].
  repeat split;
    try (rewrite item_setitem;
         first [rewrite H1|rewrite H2|rewrite H3|rewrite H4|rewrite H5|rewrite H6
               |rewrite H7|rewrite H8|rewrite H9|rewrite H10|rewrite H11];
         decide_keys;
         repeat match goal with
                | |- context [entry ?v] => destruct (entry v)
                | |- context [py_eq ?a ?b] => destruct (py_eq a b)
                end; reflexivity).
  intros key [x Hx]. rewrite item_setitem in Hx.
  destruct (item j key) eqn:Hkey.
  - apply Hplain. rewrite Hkey. by eexists.
  - case_decide; [subst; in_keys|done].
Qed.

Lemma to_json_projection_witness :
  ∃ self_json,
    to_json more_examples.dated_marital_status = Ok self_json
    ∧ item self_json "@type" = Some (JValue (PyStr "Enumeration"))
    ∧ item self_json "end" = Some (JValue (PyStr "2014-12-31"))
    ∧ item self_json "freq" = None
    ∧ item self_json "start" = None
    ∧ item self_json "labels" = Some (JLabels [(0, "single"); (1, "married")]).
Proof.
  destruct (to_json_projection more_examples.dated_marital_status "Enumeration"
              (PyStr "year") eq_refl eq_refl)
    as (j & Hj & H1 & _ & _ & H4 & _ & H6 & _ & _ & H9 & _ & H11 & _).
  exists j. split; [exact Hj|]. split; [exact H1|].
  split; [rewrite H4; vm_compute; reflexivity|].
  split; [exact H6|]. split; [exact H9|].
  rewrite H11. vm_compute. reflexivity.
Defined.

End serialization_spec.

(** ** Constructors *)
Module constructors_spec.
Import columns prestations.

(** X8.  A call of the constructor of a column class with a keyword
    that [Column.__init__] does not have fails with [TypeError]; a
    call that succeeds yields a descriptor whose default is never
    [None] (the default of the class when none, or one equal to it, is
    given), whose entity is never empty ('ind' unless a true one is
    given), that holds no label index and has no [freq] attribute. *)
Theorem Column_init_call_spec (c : column_class) (enum : option Enum)
    (kwargs : list (string * pyvalue)) :
  ((∃ item, item ∈ kwargs ∧ item.1 ∉ Column_init_keywords) →
   Column_init_call c enum kwargs = Raise TypeError)
  ∧ ∀ self, Column_init_call c enum kwargs = Ok self →
      _default self ≠ PyNone
      ∧ (argument kwargs "default" PyNone = PyNone
         ∨ py_eq (argument kwargs "default" PyNone) (class_default c) = true →
         _default self = class_default c)
      ∧ truthy (entity self) = true
      ∧ (truthy (argument kwargs "entity" PyNone) = false → entity self = PyStr "ind")
      ∧ index_by_slug self = None
      ∧ freq self = None.
Proof.
  unfold Column_init_call. split.
  - intros (item & Hin & Hkey).
    destruct (accepts Column_init_keywords kwargs) eqn:Haccepts; [|done].
    exfalso. apply Hkey. unfold accepts in Haccepts.
    rewrite forallb_forall in Haccepts.
    apply list_elem_of_In in Hin. apply Haccepts in Hin.
    by apply bool_decide_eq_true in Hin.
  - intros self. destruct (accepts Column_init_keywords kwargs); [|done].
    intros [= <-]. simpl.
    set (d := argument kwargs "default" PyNone).
    set (en := argument kwargs "entity" PyNone).
    repeat split.
    + destruct (is_none d) eqn:Hd; simpl; [by destruct c|].
      destruct (py_eq d (class_default c)); simpl; [by destruct c|].
      intros ->. done.
    + intros [->|Heq]; [done|]. rewrite Heq. simpl. by rewrite andb_false_r.
    + by destruct (truthy en) eqn:Hen.
    + by intros ->.
Qed.

Lemma Column_init_call_spec_witness :
  Column_init_call class_IntCol None [("label", PyStr "Age"); ("freq", PyStr "year")]
  = Raise TypeError.
Proof.
  apply (Column_init_call_spec class_IntCol None
           [("label", PyStr "Age"); ("freq", PyStr "year")]).
  exists ("freq", PyStr "year"). split.
  - apply list_elem_of_further, list_elem_of_here.
  - simpl. intros Hin. apply list_elem_of_In in Hin. simpl in Hin.
    repeat destruct Hin as [Hin|Hin]; try discriminate Hin. exact Hin.
Defined.

(** The [super] call of [Prestation.__init__] is refused: [freq] is no
    parameter of [Column.__init__]. *)
Lemma super_call_refused (c : column_class) (enum : option Enum)
    (label entity start end_ val_type freq survey_only : pyvalue) :
  Column_init_call c enum
    [("label", label); ("entity", entity); ("start", start); ("end", end_);
     ("val_type", val_type); ("freq", freq); ("survey_only", survey_only)]
  = Raise TypeError.
Proof. reflexivity. Qed.

(** X9.  No instance of [Prestation], [BoolPresta], [EnumPresta],
    [FloatPresta] or [IntPresta] can be built: whatever the function
    and the keyword arguments, the constructor raises [TypeError],
    either for a keyword that one of the two [__init__] it runs does
    not have, or in the [super] call of [Prestation.__init__], which
    passes [freq] on to [Column.__init__]; the assertion on the
    function is never reached. *)
Theorem prestation_cannot_be_built (p : prestation_class) (enum : option Enum)
    (func_is_none : bool) (kwargs : list (string * pyvalue)) :
  construct p enum func_is_none kwargs = Raise TypeError.
Proof.
  assert (Hinit : Prestation_init_call p None func_is_none kwargs = Raise TypeError).
  { unfold Prestation_init_call.
    destruct (accepts Prestation_init_keywords kwargs); [|done].
    by rewrite super_call_refused. }
  unfold construct. destruct p; try exact Hinit;
    match goal with
    | |- context [Column_init_call ?c ?e kwargs] =>
        unfold Column_init_call at 1;
        destruct (accepts Column_init_keywords kwargs); [exact Hinit|done]
    end.
Qed.

End constructors_spec.

(** ** More of the simulation front end *)
Module front_end_spec.
Import simulations.

Ltac in_list := repeat first [apply list_elem_of_here | apply list_elem_of_further].

(** X10.  The constructor of a simulation fails on its assertions when
    the date or the tax and benefit system is missing.  Otherwise the
    simulation keeps the date, takes its default legislation from the
    system at that date and, when no legislation is given, the same
    one as its legislation; it owns no entity yet, so that every
    [compute] for a column that is not being resolved and every
    [get_holder_by_name] raises [TypeError] until [set_entities] is
    called. *)
Theorem new_simulation (V L : Type) (legislation : option L) (day : pyvalue)
    (tax_benefit_system : option (pyvalue → L)) (h : gmap entity_ref (Entity V L)) :
  match simulation_init.__init__ legislation day tax_benefit_system with
  | Raise exn =>
      exn = AssertionError "" ∧ (day = PyNone ∨ tax_benefit_system = None)
  | Ok s =>
      day ≠ PyNone
      ∧ date s = day
      ∧ (∃ get_compact_legislation,
           tax_benefit_system = Some get_compact_legislation
           ∧ default_compact_legislation s = get_compact_legislation day
           ∧ compact_legislation s
             = default (get_compact_legislation day) legislation)
      ∧ (∀ (entity_compute : entity_method V L) column_name requested_columns_name,
           (∀ requested, requested_columns_name = Some requested →
              column_name ∉ requested) →
           compute entity_compute column_name requested_columns_name
             {| sim := s; heap := h |}
           = (Raise TypeError, {| sim := s; heap := h |}))
      ∧ (∀ column_name default,
           get_holder_by_name {| sim := s; heap := h |} column_name default
           = Raise TypeError)
  end.
Proof.
  unfold simulation_init.__init__.
  destruct tax_benefit_system as [get|].
  - destruct day; try (split; [done|]; split; [done|]; split;
      [exists get; by destruct legislation|]; split;
      [intros ec c [requested|] Hfree; unfold compute; simpl;
         [by rewrite decide_False by (by apply Hfree)|done]
      |done]).
    split; [done|by left].
  - destruct day; split; try done; by right.
Qed.

Section owner.
Context {V L : Type}.
Implicit Types (w : world V L) (h : gmap entity_ref (Entity V L)).

Local Abbreviation put :=
  (λ (d : gmap string entity_ref) (p : string * entity_ref), <[p.1 := p.2]> d).

Lemma put_skip (pairs : list (string * entity_ref)) (d : gmap string entity_ref)
    (c : string) :
  c ∉ pairs.*1 → foldl put d pairs !! c = d !! c.
Proof.
  revert d. induction pairs as [|[c' r'] pairs IH]; intros d Hc; simpl; [done|].
  rewrite IH.
  - apply lookup_insert_ne. intros ->. apply Hc. simpl. apply list_elem_of_here.
  - intros Hin. apply Hc. simpl. by apply list_elem_of_further.
Qed.

Lemma put_same (names : list string) (r : entity_ref) (d : gmap string entity_ref)
    (c : string) :
  c ∈ names → foldl put d ((λ n, (n, r)) <$> names) !! c = Some r.
Proof.
  revert d. induction names as [|n names IH]; intros d Hc; simpl.
  - by apply elem_of_nil in Hc.
  - destruct (decide (c ∈ names)) as [Hin|Hout]; [by apply IH|].
    apply elem_of_cons in Hc as [->|Hc]; [|done].
    rewrite put_skip; [apply lookup_insert_eq|].
    rewrite <- list_fmap_compose. simpl. by rewrite list_fmap_id.
Qed.

Lemma owner_pairs_keys h (ents : list (string * entity_ref)) (c : string) :
  c ∈ (owner_pairs h ents).*1 → ∃ r, r ∈ ents.*2 ∧ c ∈ column_names h r.
Proof.
  intros Hin. apply list_elem_of_fmap in Hin as [[c' r] [-> Hin]].
  exists r. by apply simulations_spec.elem_of_owner_pairs.
Qed.

(** X11.  When several attached entities register one column name,
    the owner is the one that comes last in the iteration over the
    entities: an entity owns each of its names that no entity after it
    registers. *)
Theorem set_entities_last_registration_wins w
    (before after : list (string * entity_ref)) (k : string) (r : entity_ref)
    (column_name : string) :
  column_name ∈ column_names (heap w) r →
  (∀ r', r' ∈ after.*2 → column_name ∉ column_names (heap w) r') →
  ∃ owner,
    entity_by_column_name (sim (set_entities w (before ++ (k, r) :: after)))
    = Some owner
    ∧ owner !! column_name = Some r.
Proof.
  intros Hc Hafter. eexists. split; [reflexivity|].
  unfold dict_of_pairs, owner_pairs.
  rewrite bind_app, bind_cons, !foldl_app. simpl.
  rewrite put_skip.
  - by apply put_same.
  - intros Hin. destruct (owner_pairs_keys _ _ _ Hin) as (r' & Hr' & Hc').
    by apply (Hafter r').
Qed.

Lemma owner_of_single_registration w (ents : list (string * entity_ref))
    (r : entity_ref) (c : string) :
  r ∈ ents.*2 → c ∈ column_names (heap w) r →
  (∀ r', r' ∈ ents.*2 → c ∈ column_names (heap w) r' → r' = r) →
  dict_of_pairs (owner_pairs (heap w) ents) !! c = Some r.
Proof.
  intros Hr Hc Huniq.
  destruct (simulations_spec.dict_of_pairs_is_Some (owner_pairs (heap w) ents) c r)
    as [r' Hr']; [by apply simulations_spec.elem_of_owner_pairs|].
  pose proof (simulations_spec.dict_of_pairs_lookup _ _ _ Hr') as Hin.
  apply simulations_spec.elem_of_owner_pairs in Hin as [Hin' Hc'].
  by rewrite Hr', (Huniq r' Hin' Hc').
Qed.

(** X12.  Once the entities are attached, [compute] for a name that
    one entity registers, and that is not being resolved, is the call
    of [compute] on that entity, with the same name, on the simulation
    as it is, and with the set of requested columns it was given, the
    empty set when it was given none. *)
Theorem compute_routes_to_owner (entity_compute : entity_method V L) w
    (ents : list (string * entity_ref)) (r : entity_ref) (column_name : string)
    (requested_columns_name : option (gset string)) :
  r ∈ ents.*2 → column_name ∈ column_names (heap w) r →
  (∀ r', r' ∈ ents.*2 → column_name ∈ column_names (heap w) r' → r' = r) →
  (∀ requested, requested_columns_name = Some requested → column_name ∉ requested) →
  compute entity_compute column_name requested_columns_name (set_entities w ents)
  = entity_compute r column_name (default ∅ requested_columns_name)
      (set_entities w ents).
Proof.
  intros Hr Hc Huniq Hfree.
  pose proof (owner_of_single_registration w ents r column_name Hr Hc Huniq) as Howner.
  unfold compute. destruct requested_columns_name as [requested|]; simpl.
  - rewrite decide_False by (by apply Hfree). by rewrite Howner.
  - by rewrite Howner.
Qed.

(** X13.  A name that no attached entity registers is unknown to the
    simulation: [compute] for it, when it is not being resolved, and
    [get_holder_by_name], with or without a default, raise the
    [KeyError] of that name, and [compute] leaves the simulation as it
    is. *)
Theorem unregistered_name_is_unknown w (ents : list (string * entity_ref))
    (column_name : string) :
  (∀ r, r ∈ ents.*2 → column_name ∉ column_names (heap w) r) →
  (∀ (entity_compute : entity_method V L) requested_columns_name,
     (∀ requested, requested_columns_name = Some requested →
        column_name ∉ requested) →
     compute entity_compute column_name requested_columns_name (set_entities w ents)
     = (Raise (KeyError column_name), set_entities w ents))
  ∧ ∀ default,
      get_holder_by_name (set_entities w ents) column_name default
      = Raise (KeyError column_name).
Proof.
  intros Hnone.
  assert (Howner : dict_of_pairs (owner_pairs (heap w) ents) !! column_name = None).
  { destruct (dict_of_pairs (owner_pairs (heap w) ents) !! column_name) as [r|] eqn:Hr;
      [|done].
    apply simulations_spec.dict_of_pairs_lookup in Hr.
    apply simulations_spec.elem_of_owner_pairs in Hr as [Hr Hc].
    by destruct (Hnone r Hr). }
  split.
  - intros entity_compute requested_columns_name Hfree.
    by apply (simulations_spec.compute_unknown entity_compute column_name
                requested_columns_name (set_entities w ents) _ eq_refl Howner).
  - intros default. unfold get_holder_by_name. simpl. by rewrite Howner.
Qed.

End owner.

#[local] Instance name_le_total : Total name_le.
Proof. intros a b. unfold name_le. apply String.leb_total. Qed.


Lemma two_entities_age (r : entity_ref) :
  r ∈ [0%nat; 1%nat] →
  ("age" : string) ∈ column_names (heap more_examples.two_entities) r.
Proof.
  intros Hr. apply elem_of_cons in Hr as [->|Hr];
    [|apply list_elem_of_singleton in Hr as ->];
    vm_compute; in_list.
Qed.


Ltac not_in_list H :=
  vm_compute in H;
  repeat (apply elem_of_cons in H as [H|H]; [discriminate H|]);
  by apply elem_of_nil in H.

Lemma set_entities_last_registration_wins_witness :
  ∃ owner,
    entity_by_column_name
      (sim (set_entities more_examples.two_entities
              ([("ind", 0%nat)] ++ ("men", 1%nat) :: [])))
    = Some owner
    ∧ owner !! "age" = Some 1%nat.
Proof.
  apply (set_entities_last_registration_wins more_examples.two_entities
           [("ind", 0%nat)] [] "men" 1%nat "age").
  - apply two_entities_age. in_list.
  - intros r' Hr'. by apply elem_of_nil in Hr'.
Defined.

Lemma two_entities_A (r : entity_ref) :
  r ∈ [0%nat; 1%nat] →
  ("A" : string) ∈ column_names (heap more_examples.two_entities) r → r = 0%nat.
Proof.
  intros Hr HA. apply elem_of_cons in Hr as [->|Hr]; [done|].
  apply list_elem_of_singleton in Hr as ->. not_in_list HA.
Qed.

Lemma compute_routes_to_owner_witness :
  compute (Entity_compute (evaluate 3)) "A" None
    (set_entities more_examples.two_entities [("ind", 0%nat); ("men", 1%nat)])
  = Entity_compute (evaluate 3) 0%nat "A" ∅
      (set_entities more_examples.two_entities [("ind", 0%nat); ("men", 1%nat)]).
Proof.
  apply (compute_routes_to_owner (Entity_compute (evaluate 3))
           more_examples.two_entities [("ind", 0%nat); ("men", 1%nat)] 0%nat "A" None).
  - simpl. in_list.
  - vm_compute. in_list.
  - exact two_entities_A.
  - intros requested Hrequested. discriminate Hrequested.
Defined.

Lemma two_entities_revenu (r : entity_ref) :
  r ∈ [0%nat; 1%nat] →
  ("revenu" : string) ∉ column_names (heap more_examples.two_entities) r.
Proof.
  intros Hr Hin. apply elem_of_cons in Hr as [->|Hr];
    [|apply list_elem_of_singleton in Hr as ->]; not_in_list Hin.
Qed.

Lemma unregistered_name_is_unknown_witness :
  get_holder_by_name
    (set_entities more_examples.two_entities [("ind", 0%nat); ("men", 1%nat)])
    "revenu" (Default PyNone)
  = Raise (KeyError "revenu").
Proof.
  apply (unregistered_name_is_unknown more_examples.two_entities
           [("ind", 0%nat); ("men", 1%nat)] "revenu" two_entities_revenu).
Defined.

End front_end_spec.

(** ** More of the reform mode *)
Module reform_more_spec.
Import legacy_simulations.

Section tables.
Context {V L : Type}.
Implicit Types (h : gmap nat (object V L)) (t : TaxBenefitSystem V L)
  (s : Simulation V L).

Local Abbreviation is_table h r := (∃ t, h !! r = Some (OutputTable t)).

Lemma call_keeps_table r method h r' : is_table h r' → is_table (call r method h) r'.
Proof.
  intros [t Ht]. unfold call. destruct (h !! r) as [[d|u]|] eqn:Hr; eauto.
  destruct (decide (r = r')) as [->|Hne].
  - rewrite lookup_insert_eq. eauto.
  - rewrite lookup_insert_ne by done. eauto.
Qed.

Lemma call_calculate_keeps_table r h r' :
  is_table h r' → is_table (call_calculate r h).2 r'.
Proof.
  intros [t Ht]. unfold call_calculate. destruct (h !! r) as [[d|u]|] eqn:Hr; eauto.
  simpl. destruct (decide (r = r')) as [->|Hne].
  - rewrite lookup_insert_eq. eauto.
  - rewrite lookup_insert_ne by done. eauto.
Qed.

(** The tables [_compute] leaves in the simulation are objects that
    did not exist before the call. *)
Lemma compute_new_tables (kw : option string) s h :
  ∃ out out_default,
    output_table (_compute kw s h).1 = Some out
    ∧ output_table_default (_compute kw s h).1 = Some out_default
    ∧ h !! out = None ∧ h !! out_default = None
    ∧ is_table (_compute kw s h).2 out
    ∧ is_table (_compute kw s h).2 out_default.
Proof.
  unfold _compute, _preproc, alloc.
  set (t1 := set_inputs (input_table s)
               (new_table (prestation_by_name s) (P s) (P_default s))).
  set (t2 := set_inputs (input_table s)
               (new_table (prestation_by_name s) (P_default s) (P_default s))).
  set (r1 := fresh (dom h)).
  set (h1 := <[r1 := OutputTable t1]> h).
  set (r2 := fresh (dom h1)).
  assert (Hr1 : h !! r1 = None) by apply not_elem_of_dom, is_fresh.
  assert (Hr2 : h1 !! r2 = None) by apply not_elem_of_dom, is_fresh.
  assert (Hne : r1 ≠ r2).
  { intros Heq. rewrite <- Heq in Hr2. unfold h1 in Hr2.
    rewrite lookup_insert_eq in Hr2. discriminate. }
  assert (Hr2' : h !! r2 = None).
  { unfold h1 in Hr2. by rewrite lookup_insert_ne in Hr2. }
  assert (H1 : is_table h1 r1) by (exists t1; apply lookup_insert_eq).
  destruct (reforme s) eqn:Href;
    cbn [fst snd output_table output_table_default set_output_tables reforme
         disabled_prestations]; rewrite Href.
  - assert (H2 : is_table (<[r2 := OutputTable t2]> h1) r2)
      by (exists t2; apply lookup_insert_eq).
    assert (H1' : is_table (<[r2 := OutputTable t2]> h1) r1).
    { destruct H1 as [t Ht]. exists t. by rewrite lookup_insert_ne. }
    destruct (call_calculate r1 _) as [d0 h0] eqn:Hcalc.
    destruct (call_calculate r2 _) as [d1 h2] eqn:Hcalc2.
    exists r1, r2. cbn [fst snd output_table output_table_default set_data].
    assert (Hh0 : ∀ r, is_table (<[r2 := OutputTable t2]> h1) r → is_table h0 r).
    { intros r Hr. replace h0 with (call_calculate r1
        (call r2 (set_decomp_file kw) (call r1 (set_decomp_file kw)
          (call r2 (disable (disabled_prestations s))
            (call r1 (disable (disabled_prestations s))
              (<[r2:=OutputTable t2]> h1)))))).2 by (by rewrite Hcalc).
      apply call_calculate_keeps_table. by do 4 apply call_keeps_table. }
    assert (Hh2 : ∀ r, is_table h0 r → is_table h2 r).
    { intros r Hr. replace h2 with (call_calculate r2
        (call r2 (disable (disabled_prestations s)) (call r2 reset h0))).2
        by (by rewrite Hcalc2).
      apply call_calculate_keeps_table. by do 2 apply call_keeps_table. }
    repeat split; auto.
  - destruct (call_calculate r1 _) as [d0 h0] eqn:Hcalc.
    exists r1, r1. cbn [fst snd output_table output_table_default set_data].
    assert (Hh0 : is_table h0 r1).
    { replace h0 with (call_calculate r1
        (call r1 (set_decomp_file kw) (call r1 (set_decomp_file kw)
          (call r1 (disable (disabled_prestations s))
            (call r1 (disable (disabled_prestations s)) h1))))).2
        by (by rewrite Hcalc).
      apply call_calculate_keeps_table. by do 4 apply call_keeps_table. }
    repeat split; auto.
Qed.

(** X15.  Every call of [_compute] works on output tables it has
    just built: the tables it leaves in the simulation did not exist
    before the call, and a further call, in whatever mode, neither
    takes up nor returns any of them. *)
Theorem compute_builds_new_tables (kw kw' : option string) s h :
  ∃ out out_default,
    output_table (_compute kw s h).1 = Some out
    ∧ output_table_default (_compute kw s h).1 = Some out_default
    ∧ h !! out = None ∧ h !! out_default = None
    ∧ is_Some ((_compute kw s h).2 !! out)
    ∧ is_Some ((_compute kw s h).2 !! out_default)
    ∧ ∀ again,
        again = output_table
                  (_compute kw' (_compute kw s h).1 (_compute kw s h).2).1
        ∨ again = output_table_default
                    (_compute kw' (_compute kw s h).1 (_compute kw s h).2).1 →
        again ≠ Some out ∧ again ≠ Some out_default.
Proof.
  destruct (compute_new_tables kw s h)
    as (out & od & Ho & Hod & Hnew & Hnewd & [t Ht] & [td Htd]).
  exists out, od. split; [done|]. split; [done|]. split; [done|]. split; [done|].
  split; [by eexists|]. split; [by eexists|].
  destruct (compute_new_tables kw' (_compute kw s h).1 (_compute kw s h).2)
    as (out' & od' & Ho' & Hod' & Hnew' & Hnewd' & _).
  intros again [->| ->].
  - rewrite Ho'. split; intros [= ->]; congruence.
  - rewrite Hod'. split; intros [= ->]; congruence.
Qed.

(** X16.  Without the reform mode there is one output table, built
    with the legislation [P]: both attributes of the simulation name
    it, and the default data are the data themselves, what a table
    with an empty cache computes from the inputs under [P]. *)
Theorem without_reform_one_table (kw : option string) s h (d : DataTable V) :
  reforme s = false → h !! input_table s = Some (InputTable d) →
  ∃ out t,
    output_table (_compute kw s h).1 = Some out
    ∧ output_table_default (_compute kw s h).1 = Some out
    ∧ (_compute kw s h).2 !! out = Some (OutputTable t)
    ∧ (_compute kw s h).2 !! input_table s = Some (InputTable d)
    ∧ _param t = P s ∧ _default_param t = P_default s
    ∧ computed t = fresh_calculation s (table d) (P s)
    ∧ data (_compute kw s h).1 = Some (computed t)
    ∧ data_default (_compute kw s h).1 = Some (computed t).
Proof.
  intros Href Hin.
  unfold _compute, _preproc, alloc. rewrite Href.
  set (t1 := set_inputs (input_table s)
               (new_table (prestation_by_name s) (P s) (P_default s))).
  set (r1 := fresh (dom h)).
  assert (Hr1 : h !! r1 = None) by apply not_elem_of_dom, is_fresh.
  assert (Hi : input_table s ≠ r1) by (intros Heq; rewrite Heq in Hin; congruence).
  cbn [fst snd output_table output_table_default set_output_tables reforme
       disabled_prestations].
  rewrite Href.
  assert (Hstep : ∀ method h' t,
            h' !! r1 = Some (OutputTable t) ∧ h' !! input_table s = Some (InputTable d) →
            call r1 method h' !! r1 = Some (OutputTable (method t))
            ∧ call r1 method h' !! input_table s = Some (InputTable d)).
  { intros method h' t [Ht Hd].
    rewrite (legacy_simulations_spec.call_lookup _ _ _ _ Ht).
    by rewrite lookup_insert_eq, lookup_insert_ne. }
  assert (H0 : <[r1 := OutputTable t1]> h !! r1 = Some (OutputTable t1)
               ∧ <[r1 := OutputTable t1]> h !! input_table s = Some (InputTable d))
    by (by rewrite lookup_insert_eq, lookup_insert_ne).
  apply (Hstep (disable (disabled_prestations s))) in H0.
  apply (Hstep (disable (disabled_prestations s))) in H0.
  apply (Hstep (set_decomp_file kw)) in H0.
  apply (Hstep (set_decomp_file kw)) in H0.
  destruct H0 as [Ht Hd].
  rewrite (legacy_simulations_spec.call_calculate_lookup _ _ _ Ht).
  unfold input_columns. cbn [_inputs set_decomp_file disable set_inputs t1 mbind option_bind].
  rewrite Hd.
  exists r1. eexists. cbn [fst snd output_table output_table_default set_data
                            data data_default].
  split; [reflexivity|]. split; [reflexivity|].
  split; [apply lookup_insert_eq|].
  split; [by rewrite lookup_insert_ne|].
  repeat split.
Qed.

End tables.

Lemma without_reform_one_table_witness :
  ∃ (out : nat) (t : TaxBenefitSystem Q examples.legislation),
    output_table
      (_compute None more_examples.plain_simulation examples.reform_heap).1 = Some out
    ∧ output_table_default
        (_compute None more_examples.plain_simulation examples.reform_heap).1
      = Some out
    ∧ computed t !! "tax" = Some [100#1; 0#1; 50#1]
    ∧ data (_compute None more_examples.plain_simulation examples.reform_heap).1
      = Some (computed t)
    ∧ data_default
        (_compute None more_examples.plain_simulation examples.reform_heap).1
      = Some (computed t).
Proof.
  destruct (without_reform_one_table None more_examples.plain_simulation
              examples.reform_heap examples.survey eq_refl eq_refl)
    as (out & t & Ho & Hod & _ & _ & _ & _ & Ht & Hdata & Hdefault).
  exists out, t. split; [exact Ho|]. split; [exact Hod|].
  split; [rewrite Ht; vm_compute; reflexivity|]. split; [exact Hdata|exact Hdefault].
Defined.

End reform_more_spec.
